(** * Cache update and dump engine: [cache::CacheUpdateTrait]

    A shallow embedding of [core/src/cache/cache_update_trait.cpp] and the
    properties of its update driver, dump engine and bootstrap.

    Conventions of the embedding.
    - Time points and durations of [std::chrono] are integers ([Z]) counted
      in the ticks of [dump::TimePoint]; a value-initialised time point
      ([time_point{}]) is [0].  Arithmetic is unbounded.
    - Member functions are computations in the monad [M]: they thread the
      object ([CacheUpdateTrait]), may throw, and emit the calls they make
      to collaborators (domain [Update], dump facade, tasks) as [Event]s.
    - Everything the environment decides is an explicit argument: the
      clock readings, what the domain [Update] does, what the dump
      facade finds on disk, how a dump task ends.
    - Exceptions are objects of classes derived from [std::exception],
      identified by their [what()] string.
    - A dump task spawned on the filesystem task processor stays
      [TaskRunning] until it is run to completion as one step
      ([RunDumpTask]), either between two operations or by a [Wait()]. *)

From Stdlib Require Import ZArith List Bool String Lia.
Import ListNotations.
Local Open Scope Z_scope.

(** ** Data model *)

Definition TimePoint := Z.        (* dump::TimePoint, system_clock *)
Definition SteadyTimePoint := Z.  (* steady_clock::time_point *)
Definition Duration := Z.
Definition exception := string.

Inductive UpdateType := kFull | kIncremental.
Inductive AllowedUpdateTypes := kFullAndIncremental | kOnlyFull | kOnlyIncremental.
Inductive FirstUpdateMode := kRequired | kBestEffort | kSkip.
Inductive DumpType := kHonorDumpInterval | kForced.
Inductive DumpOperation := kNewDump | kBumpTime.

(** [CacheUpdateTrait::Flag], the argument of [StartPeriodicUpdates]. *)
Inductive Flag := kNone | kNoFirstUpdate.

(** [utils::PeriodicTask::Flags], a bit mask. *)
Record PeriodicTaskFlags := mkPeriodicTaskFlags {
  kChaotic : bool;
  kCritical : bool;
  kNow : bool
}.

Record CacheConfigStatic := mkCacheConfigStatic {
  update_interval : Duration;
  update_jitter : Duration;
  full_update_interval : Duration;
  cleanup_interval : Duration;
  allowed_update_types : AllowedUpdateTypes;
  first_update_mode : FirstUpdateMode;
  force_full_second_update : bool;
  allow_first_update_failure : bool;
  dumps_enabled : bool;
  min_dump_interval : Duration
}.

Record PeriodicTaskSettings := mkPeriodicTaskSettings {
  period : Duration;
  jitter : Duration;
  task_flags : PeriodicTaskFlags
}.

(** The handle [UpdateData::dump_task].  A running task remembers what its
    lambda captured in [DumpAsync]. *)
Inductive DumpTask :=
| TaskInvalid
| TaskRunning (operation_type : DumpOperation)
              (old_update_time new_update_time : TimePoint)
| TaskFinished (threw : bool).

Definition IsValid (t : DumpTask) : bool :=
  match t with TaskInvalid => false | _ => true end.

Definition IsFinished (t : DumpTask) : bool :=
  match t with TaskFinished _ => true | _ => false end.

Record UpdateData := mkUpdateData {
  last_update : TimePoint;
  last_modifying_update : TimePoint;
  last_full_update : SteadyTimePoint;
  dump_task : DumpTask
}.

Record DumpStatistics := mkDumpStatistics {
  is_loaded : bool;
  is_current_from_dump : bool
}.

Record CacheUpdateTrait := mkCacheUpdateTrait {
  static_config_ : CacheConfigStatic;
  config_ : CacheConfigStatic;
  periodic_update_enabled_ : bool;
  is_running_ : bool;
  force_next_update_full_ : bool;
  periodic_task_flags_ : PeriodicTaskFlags;
  cache_modified_ : bool;
  last_dumped_update_ : TimePoint;
  update_ : UpdateData;
  update_task_ : option PeriodicTaskSettings;   (* Some: started *)
  cleanup_task_ : option Duration;             (* Some: started, with its period *)
  cache_invalidator_holder_ : bool;
  statistics_dump : DumpStatistics
}.

(** Calls to collaborators, in the order they are made. *)
Inductive Event :=
| EvUpdate (type : UpdateType) (previous_last_update now : TimePoint)
| EvDumpAsyncIfNeeded (type : DumpType)
| EvDumpAsync (operation_type : DumpOperation)
              (old_update_time new_update_time : TimePoint)
| EvDoDump (update_time : TimePoint)
| EvBumpDumpTime (old_update_time new_update_time : TimePoint)
| EvDumpTaskGet
| EvDumpTaskWait
| EvDumpTaskRequestCancel
| EvGetLatestDump
| EvUpdateTaskStart (settings : PeriodicTaskSettings)
| EvCleanupTaskStart (period : Duration)
| EvUpdateTaskStop
| EvCleanupTaskStop.

(** What the environment supplies to one run of [DoUpdate]. *)
Record DomainUpdate := mkDomainUpdate {
  calls_OnCacheModified : bool;
  update_throws : option exception
}.

Record UpdateEnv := mkUpdateEnv {
  steady_now_tick : SteadyTimePoint;  (* steady_clock::now() in DoPeriodicUpdate *)
  steady_now : SteadyTimePoint;       (* steady_clock::now() in DoUpdate *)
  system_now : TimePoint;             (* system_clock::now() in DoUpdate *)
  domain : DomainUpdate
}.

(** ** Field updates *)

Definition set_last_update (t : TimePoint) (u : UpdateData) : UpdateData :=
  mkUpdateData t (last_modifying_update u) (last_full_update u) (dump_task u).

Definition set_last_modifying_update (t : TimePoint) (u : UpdateData) : UpdateData :=
  mkUpdateData (last_update u) t (last_full_update u) (dump_task u).

Definition set_last_full_update (t : SteadyTimePoint) (u : UpdateData) : UpdateData :=
  mkUpdateData (last_update u) (last_modifying_update u) t (dump_task u).

Definition set_dump_task (d : DumpTask) (u : UpdateData) : UpdateData :=
  mkUpdateData (last_update u) (last_modifying_update u) (last_full_update u) d.

Definition set_config (c : CacheConfigStatic) (self : CacheUpdateTrait) :=
  mkCacheUpdateTrait (static_config_ self) c (periodic_update_enabled_ self)
    (is_running_ self) (force_next_update_full_ self) (periodic_task_flags_ self)
    (cache_modified_ self) (last_dumped_update_ self) (update_ self)
    (update_task_ self) (cleanup_task_ self) (cache_invalidator_holder_ self)
    (statistics_dump self).

Definition set_is_running (b : bool) (self : CacheUpdateTrait) :=
  mkCacheUpdateTrait (static_config_ self) (config_ self) (periodic_update_enabled_ self)
    b (force_next_update_full_ self) (periodic_task_flags_ self)
    (cache_modified_ self) (last_dumped_update_ self) (update_ self)
    (update_task_ self) (cleanup_task_ self) (cache_invalidator_holder_ self)
    (statistics_dump self).

Definition set_force_next_update_full (b : bool) (self : CacheUpdateTrait) :=
  mkCacheUpdateTrait (static_config_ self) (config_ self) (periodic_update_enabled_ self)
    (is_running_ self) b (periodic_task_flags_ self)
    (cache_modified_ self) (last_dumped_update_ self) (update_ self)
    (update_task_ self) (cleanup_task_ self) (cache_invalidator_holder_ self)
    (statistics_dump self).

Definition set_periodic_task_flags (f : PeriodicTaskFlags) (self : CacheUpdateTrait) :=
  mkCacheUpdateTrait (static_config_ self) (config_ self) (periodic_update_enabled_ self)
    (is_running_ self) (force_next_update_full_ self) f
    (cache_modified_ self) (last_dumped_update_ self) (update_ self)
    (update_task_ self) (cleanup_task_ self) (cache_invalidator_holder_ self)
    (statistics_dump self).

Definition set_cache_modified (b : bool) (self : CacheUpdateTrait) :=
  mkCacheUpdateTrait (static_config_ self) (config_ self) (periodic_update_enabled_ self)
    (is_running_ self) (force_next_update_full_ self) (periodic_task_flags_ self)
    b (last_dumped_update_ self) (update_ self)
    (update_task_ self) (cleanup_task_ self) (cache_invalidator_holder_ self)
    (statistics_dump self).

Definition set_last_dumped_update (t : TimePoint) (self : CacheUpdateTrait) :=
  mkCacheUpdateTrait (static_config_ self) (config_ self) (periodic_update_enabled_ self)
    (is_running_ self) (force_next_update_full_ self) (periodic_task_flags_ self)
    (cache_modified_ self) t (update_ self)
    (update_task_ self) (cleanup_task_ self) (cache_invalidator_holder_ self)
    (statistics_dump self).

Definition set_update (u : UpdateData) (self : CacheUpdateTrait) :=
  mkCacheUpdateTrait (static_config_ self) (config_ self) (periodic_update_enabled_ self)
    (is_running_ self) (force_next_update_full_ self) (periodic_task_flags_ self)
    (cache_modified_ self) (last_dumped_update_ self) u
    (update_task_ self) (cleanup_task_ self) (cache_invalidator_holder_ self)
    (statistics_dump self).

Definition set_update_task (t : option PeriodicTaskSettings) (self : CacheUpdateTrait) :=
  mkCacheUpdateTrait (static_config_ self) (config_ self) (periodic_update_enabled_ self)
    (is_running_ self) (force_next_update_full_ self) (periodic_task_flags_ self)
    (cache_modified_ self) (last_dumped_update_ self) (update_ self)
    t (cleanup_task_ self) (cache_invalidator_holder_ self)
    (statistics_dump self).

Definition set_cleanup_task (t : option Duration) (self : CacheUpdateTrait) :=
  mkCacheUpdateTrait (static_config_ self) (config_ self) (periodic_update_enabled_ self)
    (is_running_ self) (force_next_update_full_ self) (periodic_task_flags_ self)
    (cache_modified_ self) (last_dumped_update_ self) (update_ self)
    (update_task_ self) t (cache_invalidator_holder_ self)
    (statistics_dump self).

Definition set_cache_invalidator_holder (b : bool) (self : CacheUpdateTrait) :=
  mkCacheUpdateTrait (static_config_ self) (config_ self) (periodic_update_enabled_ self)
    (is_running_ self) (force_next_update_full_ self) (periodic_task_flags_ self)
    (cache_modified_ self) (last_dumped_update_ self) (update_ self)
    (update_task_ self) (cleanup_task_ self) b
    (statistics_dump self).

Definition set_statistics_dump (d : DumpStatistics) (self : CacheUpdateTrait) :=
  mkCacheUpdateTrait (static_config_ self) (config_ self) (periodic_update_enabled_ self)
    (is_running_ self) (force_next_update_full_ self) (periodic_task_flags_ self)
    (cache_modified_ self) (last_dumped_update_ self) (update_ self)
    (update_task_ self) (cleanup_task_ self) (cache_invalidator_holder_ self)
    d.

(** ** The monad of member functions *)

Inductive Result (A : Type) :=
| Ok (a : A)
| Throw (e : exception).
Arguments Ok {A} a.
Arguments Throw {A} e.

Definition M (A : Type) : Type :=
  CacheUpdateTrait -> Result A * CacheUpdateTrait * list Event.

Definition ret {A} (a : A) : M A := fun self => (Ok a, self, []).

Definition bind {A B} (m : M A) (f : A -> M B) : M B :=
  fun self =>
    match m self with
    | (Ok a, self1, evs1) =>
        match f a self1 with
        | (r, self2, evs2) => (r, self2, evs1 ++ evs2)
        end
    | (Throw e, self1, evs1) => (Throw e, self1, evs1)
    end.

Definition throw {A} (e : exception) : M A := fun self => (Throw e, self, []).

(** [try { body } catch (const std::exception& ex) { handler ex }] *)
Definition try_catch {A} (body : M A) (handler : exception -> M A) : M A :=
  fun self =>
    match body self with
    | (Ok a, self1, evs1) => (Ok a, self1, evs1)
    | (Throw e, self1, evs1) =>
        match handler e self1 with
        | (r, self2, evs2) => (r, self2, evs1 ++ evs2)
        end
    end.

Definition get : M CacheUpdateTrait := fun self => (Ok self, self, []).
Definition modify (f : CacheUpdateTrait -> CacheUpdateTrait) : M unit :=
  fun self => (Ok tt, f self, []).
Definition emit (e : Event) : M unit := fun self => (Ok tt, self, [e]).
Definition when (b : bool) (m : M unit) : M unit := if b then m else ret tt.

Declare Scope cache_scope.
Delimit Scope cache_scope with cache.
Notation "x <- m ;; k" := (bind m (fun x => k))
  (at level 61, m at next level, right associativity) : cache_scope.
Notation "m ;; k" := (bind m (fun _ => k))
  (at level 61, right associativity) : cache_scope.
Local Open Scope cache_scope.

Definition result_of {A} (r : Result A * CacheUpdateTrait * list Event) := fst (fst r).
Definition state_of {A} (r : Result A * CacheUpdateTrait * list Event) := snd (fst r).
Definition events_of {A} (r : Result A * CacheUpdateTrait * list Event) := snd r.

(** ** Small accessors *)

Definition GetConfig (self : CacheUpdateTrait) : CacheConfigStatic := config_ self.

Definition GetLastDumpedUpdate (self : CacheUpdateTrait) : TimePoint :=
  last_dumped_update_ self.

Definition modify_update (f : UpdateData -> UpdateData) : M unit :=
  modify (fun self => set_update (f (update_ self)) self).

(** [cache_modified_ = true] *)
Definition OnCacheModified : M unit := modify (set_cache_modified true).

(** [std::atomic<bool>::exchange] on [cache_modified_]. *)
Definition exchange_cache_modified (b : bool) : M bool :=
  fun self => (Ok (cache_modified_ self), set_cache_modified b self, []).

(** [std::exchange(force_next_update_full_, b)] *)
Definition exchange_force_next_update_full (b : bool) : M bool :=
  fun self => (Ok (force_next_update_full_ self), set_force_next_update_full b self, []).

(** [is_running_.exchange(b)] *)
Definition exchange_is_running (b : bool) : M bool :=
  fun self => (Ok (is_running_ self), set_is_running b self, []).

Definition UpdateType_eqb (a b : UpdateType) : bool :=
  match a, b with
  | kFull, kFull | kIncremental, kIncremental => true
  | _, _ => false
  end.

Definition DumpType_eqb (a b : DumpType) : bool :=
  match a, b with
  | kHonorDumpInterval, kHonorDumpInterval | kForced, kForced => true
  | _, _ => false
  end.

(** ** Update driver *)

(** The virtual [Update(type, last_update, now, stats)] of the concrete
    cache: it may call [OnCacheModified()] and may throw. *)
Definition DomainUpdateCall (d : DomainUpdate) (update_type : UpdateType)
    (previous_last_update now : TimePoint) : M unit :=
  emit (EvUpdate update_type previous_last_update now) ;;
  when (calls_OnCacheModified d) OnCacheModified ;;
  match update_throws d with
  | Some e => throw e
  | None => ret tt
  end.

(** [CacheUpdateTrait::DoUpdate] (lines 290-315). *)
Definition DoUpdate (env : UpdateEnv) (update_type : UpdateType) : M unit :=
  let steady_now := steady_now env in
  let system_now := system_now env in
  self <- get ;;
  DomainUpdateCall (domain env) update_type (last_update (update_ self)) system_now ;;
  modify_update (set_last_update system_now) ;;
  modified <- exchange_cache_modified false ;;
  when modified (modify_update (set_last_modifying_update system_now)) ;;
  when (UpdateType_eqb update_type kFull)
       (modify_update (set_last_full_update steady_now)) ;;
  modify (fun self =>
    set_statistics_dump
      (mkDumpStatistics (is_loaded (statistics_dump self)) false) self).

(** ** Dump engine *)

(** [CacheUpdateTrait::ShouldDump] (lines 317-348). *)
Definition ShouldDump (self : CacheUpdateTrait) (type : DumpType)
    (update : UpdateData) (config : CacheConfigStatic) : bool :=
  if negb (dumps_enabled config) then false
  else if last_update update =? 0 then false
  else if DumpType_eqb type kHonorDumpInterval &&
          (GetLastDumpedUpdate self >? last_update update - min_dump_interval config)
  then false
  else if IsValid (dump_task update) && negb (IsFinished (dump_task update))
  then false
  else true.

(** The body of the lambda spawned by [DumpAsync] (lines 401-419), run to
    completion.  [outcome] is what [DoDump] or [dumper_->BumpDumpTime]
    does: return [success] or let an exception escape. *)
Definition RunDumpTask (outcome : Result bool) : M unit :=
  self <- get ;;
  match dump_task (update_ self) with
  | TaskRunning operation_type old_update_time new_update_time =>
      match operation_type with
      | kNewDump => emit (EvDoDump new_update_time)
      | kBumpTime => emit (EvBumpDumpTime old_update_time new_update_time)
      end ;;
      match outcome with
      | Ok success =>
          when success (modify (set_last_dumped_update new_update_time)) ;;
          modify_update (set_dump_task (TaskFinished false))
      | Throw _ =>
          modify_update (set_dump_task (TaskFinished true))
      end
  | _ => ret tt
  end.

(** [CacheUpdateTrait::DumpAsync] (lines 385-420).  A failing
    [UASSERT_MSG] on entry ends the computation and is modelled as a
    throw; [DumpAsyncIfNeeded], the only caller, never reaches it (see
    [DumpAsyncIfNeeded_no_throw]). *)
Definition DumpAsync (operation_type : DumpOperation) : M unit :=
  self <- get ;;
  let update := update_ self in
  if negb (negb (IsValid (dump_task update)) || IsFinished (dump_task update))
  then throw "Another cache dump task is already running"%string
  else
    when (IsValid (dump_task update)) (emit EvDumpTaskGet) ;;
    let old_update_time := GetLastDumpedUpdate self in
    let new_update_time := last_modifying_update update in
    emit (EvDumpAsync operation_type old_update_time new_update_time) ;;
    modify_update
      (set_dump_task (TaskRunning operation_type old_update_time new_update_time)).

(** [CacheUpdateTrait::DumpAsyncIfNeeded] (lines 422-435). *)
Definition DumpAsyncIfNeeded (type : DumpType) (config : CacheConfigStatic) : M unit :=
  emit (EvDumpAsyncIfNeeded type) ;;
  self <- get ;;
  if negb (ShouldDump self type (update_ self) config) then ret tt
  else if GetLastDumpedUpdate self =? last_modifying_update (update_ self)
  then DumpAsync kBumpTime
  else DumpAsync kNewDump.

(** The update type picked at lines 240-261 of [DoPeriodicUpdate]. *)
Definition periodic_update_type (force_full_update : bool)
    (config : CacheConfigStatic) (update : UpdateData)
    (steady_now : SteadyTimePoint) : UpdateType :=
  if negb force_full_update then
    match allowed_update_types config with
    | kOnlyFull => kFull
    | kOnlyIncremental => kIncremental
    | kFullAndIncremental =>
        if steady_now - last_full_update update <? full_update_interval config
        then kIncremental
        else kFull
    end
  else kFull.

(** [CacheUpdateTrait::DoPeriodicUpdate] (lines 233-272). *)
Definition DoPeriodicUpdate (env : UpdateEnv) : M unit :=
  self <- get ;;
  let config := GetConfig self in
  forced <- exchange_force_next_update_full false ;;
  let force_full_update := forced || (last_update (update_ self) =? 0) in
  let update_type :=
    periodic_update_type force_full_update config (update_ self)
                         (steady_now_tick env) in
  try_catch
    (DoUpdate env update_type ;;
     DumpAsyncIfNeeded kHonorDumpInterval config)
    (fun ex =>
       DumpAsyncIfNeeded kHonorDumpInterval config ;;
       throw ex).

(** [CacheUpdateTrait::Update(UpdateType)] (lines 31-41). *)
Definition Update (env : UpdateEnv) (update_type : UpdateType) : M unit :=
  self <- get ;;
  let config := GetConfig self in
  let update_type :=
    match allowed_update_types config, update_type with
    | kOnlyFull, kIncremental => kFull
    | _, _ => update_type
    end in
  DoUpdate env update_type.

(** [dump_task.Wait()]: a running task is run to completion. *)
Definition Wait (outcome : Result bool) : M unit :=
  emit EvDumpTaskWait ;;
  RunDumpTask outcome.

(** [CacheUpdateTrait::DumpSyncDebug] (lines 43-49). *)
Definition DumpSyncDebug (outcome : Result bool) : M unit :=
  self <- get ;;
  let config := GetConfig self in
  DumpAsyncIfNeeded kForced config ;;
  self <- get ;;
  when (IsValid (dump_task (update_ self))) (Wait outcome).

(** ** Bootstrap *)

(** [CacheUpdateTrait::LoadFromDump] (lines 437-481).  [latest] is the
    result of the task run on the filesystem task processor:
    [Some update_time] when [GetLatestDump] found a dump and [ReadAndSet]
    parsed it, [None] when there is no dump or parsing threw. *)
Definition LoadFromDump (latest : option TimePoint) (config : CacheConfigStatic)
    : M bool :=
  if negb (dumps_enabled config) then ret false
  else
    emit EvGetLatestDump ;;
    match latest with
    | None => ret false
    | Some update_time =>
        modify_update (set_last_update update_time) ;;
        modify_update (set_last_modifying_update update_time) ;;
        (* utils::AtomicMax on last_dumped_update_ *)
        modify (fun self =>
          set_last_dumped_update
            (Z.max (last_dumped_update_ self) update_time) self) ;;
        modify (set_statistics_dump (mkDumpStatistics true true)) ;;
        ret true
    end.

(** [CacheUpdateTrait::GetPeriodicTaskSettings] (lines 487-491). *)
Definition GetPeriodicTaskSettings (self : CacheUpdateTrait)
    (config : CacheConfigStatic) : PeriodicTaskSettings :=
  mkPeriodicTaskSettings (update_interval config) (update_jitter config)
                         (periodic_task_flags_ self).

Definition Flag_eqb (a b : Flag) : bool :=
  match a, b with
  | kNone, kNone | kNoFirstUpdate, kNoFirstUpdate => true
  | _, _ => false
  end.

(** [flags & f] for [utils::Flags<Flag>]. *)
Definition has_flag (flags : list Flag) (f : Flag) : bool :=
  existsb (Flag_eqb f) flags.

Definition is_kSkip (m : FirstUpdateMode) : bool :=
  match m with kSkip => true | _ => false end.

Definition is_kRequired (m : FirstUpdateMode) : bool :=
  match m with kRequired => true | _ => false end.

Definition is_kOnlyIncremental (a : AllowedUpdateTypes) : bool :=
  match a with kOnlyIncremental => true | _ => false end.

Record StartEnv := mkStartEnv {
  latest_dump : option TimePoint;   (* see LoadFromDump *)
  first_update : UpdateEnv
}.

(** [CacheUpdateTrait::StartPeriodicUpdates] (lines 98-171). *)
Definition StartPeriodicUpdates (flags : list Flag) (env : StartEnv) : M unit :=
  was_running <- exchange_is_running true ;;
  if (was_running : bool) then ret tt
  else
    self <- get ;;
    let config := GetConfig self in
    modify (set_cache_invalidator_holder true) ;;
    try_catch
      (dump_loaded <- LoadFromDump (latest_dump env) config ;;
       when ((negb dump_loaded || negb (is_kSkip (first_update_mode config))) &&
             (negb (has_flag flags kNoFirstUpdate) ||
              negb (periodic_update_enabled_ self)))
         (try_catch
            (DoPeriodicUpdate (first_update env))
            (fun e =>
               if dump_loaded && negb (is_kRequired (first_update_mode config))
               then ret tt
               else if allow_first_update_failure (static_config_ self)
               then ret tt
               else throw e)) ;;
       when (dump_loaded &&
             is_kOnlyIncremental (allowed_update_types config) &&
             force_full_second_update config)
         (modify (set_force_next_update_full true) ;;
          modify (fun self =>
            set_periodic_task_flags
              (mkPeriodicTaskFlags (kChaotic (periodic_task_flags_ self))
                                   (kCritical (periodic_task_flags_ self))
                                   true) self)) ;;
       when (periodic_update_enabled_ self)
         (self <- get ;;
          let settings := GetPeriodicTaskSettings self config in
          emit (EvUpdateTaskStart settings) ;;
          modify (set_update_task (Some settings)) ;;
          emit (EvCleanupTaskStart (cleanup_interval config)) ;;
          modify (set_cleanup_task (Some (cleanup_interval config)))))
      (fun e =>
         modify (set_is_running false) ;;
         throw e).

(** [CacheUpdateTrait::StopPeriodicUpdates] (lines 173-203).  [outcome]
    ends a dump task that is still in flight. *)
Definition StopPeriodicUpdates (outcome : Result bool) : M unit :=
  was_running <- exchange_is_running false ;;
  if negb was_running then ret tt
  else
    emit EvUpdateTaskStop ;;
    modify (set_update_task None) ;;
    emit EvCleanupTaskStop ;;
    modify (set_cleanup_task None) ;;
    self <- get ;;
    let update := update_ self in
    when (IsValid (dump_task update) && negb (IsFinished (dump_task update)))
      (emit EvDumpTaskRequestCancel ;;
       Wait outcome).

(** [CacheUpdateTrait::SetConfig] (lines 225-231).  [merged] is
    the static configuration merged with the dynamic one ([MergeWith]),
    when a dynamic config is given. *)
Definition SetConfig (merged : option CacheConfigStatic) : M unit :=
  modify (fun self =>
    set_config (match merged with Some c => c | None => static_config_ self end)
               self) ;;
  self <- get ;;
  let new_config := config_ self in
  modify (fun self =>
    set_update_task
      (option_map (fun _ => GetPeriodicTaskSettings self new_config)
                  (update_task_ self)) self) ;;
  modify (fun self =>
    set_cleanup_task
      (option_map (fun _ => cleanup_interval new_config)
                  (cleanup_task_ self)) self).

(** The constructor (lines 58-79). *)
Definition Construct (config : CacheConfigStatic)
    (periodic_update_enabled : bool) : CacheUpdateTrait :=
  mkCacheUpdateTrait config config periodic_update_enabled
    false false (mkPeriodicTaskFlags true true false)
    false 0 (mkUpdateData 0 0 0 TaskInvalid)
    None None false (mkDumpStatistics false false).

(** ** Executions

    What can happen to a cache object: calls of its public interface, a
    tick of the periodic update task (only once the task is started), the
    dump task finishing on the filesystem task processor, and the concrete
    cache calling [OnCacheModified()]. *)
Inductive Operation :=
| CallStartPeriodicUpdates (flags : list Flag) (env : StartEnv)
| CallStopPeriodicUpdates (outcome : Result bool)
| CallSetConfig (merged : option CacheConfigStatic)
| CallUpdate (update_type : UpdateType) (env : UpdateEnv)
| CallDumpSyncDebug (outcome : Result bool)
| CallOnCacheModified
| PeriodicTick (env : UpdateEnv)
| DumpTaskCompletes (outcome : Result bool).

Definition perform (op : Operation) : M unit :=
  match op with
  | CallStartPeriodicUpdates flags env => StartPeriodicUpdates flags env
  | CallStopPeriodicUpdates outcome => StopPeriodicUpdates outcome
  | CallSetConfig merged => SetConfig merged
  | CallUpdate update_type env => Update env update_type
  | CallDumpSyncDebug outcome => DumpSyncDebug outcome
  | CallOnCacheModified => OnCacheModified
  | PeriodicTick env =>
      self <- get ;;
      match update_task_ self with
      | Some _ => DoPeriodicUpdate env
      | None => ret tt
      end
  | DumpTaskCompletes outcome => RunDumpTask outcome
  end.

Definition step (op : Operation) (self : CacheUpdateTrait) : CacheUpdateTrait :=
  state_of (perform op self).

Fixpoint run (ops : list Operation) (self : CacheUpdateTrait) : CacheUpdateTrait :=
  match ops with
  | [] => self
  | op :: ops => run ops (step op self)
  end.

Section Executions.

(** [admissible self op]: a side condition on the inputs an operation
    receives in state [self]. *)
Variable admissible : CacheUpdateTrait -> Operation -> Prop.

Inductive execution : CacheUpdateTrait -> list Operation -> CacheUpdateTrait -> Prop :=
| execution_done self : execution self [] self
| execution_step self op ops self' :
    admissible self op ->
    execution (step op self) ops self' ->
    execution self (op :: ops) self'.

End Executions.

(** ** Observations on event lists and states *)

Definition is_EvUpdate (e : Event) : bool :=
  match e with EvUpdate _ _ _ => true | _ => false end.

Definition is_EvDumpAsync (e : Event) : bool :=
  match e with EvDumpAsync _ _ _ => true | _ => false end.

Definition is_EvDumpTaskWait (e : Event) : bool :=
  match e with EvDumpTaskWait => true | _ => false end.

Definition is_task_start (e : Event) : bool :=
  match e with EvUpdateTaskStart _ | EvCleanupTaskStart _ => true | _ => false end.

(** The types with which the domain [Update] was run. *)
Fixpoint executed_update_types (evs : list Event) : list UpdateType :=
  match evs with
  | [] => []
  | EvUpdate t _ _ :: evs => t :: executed_update_types evs
  | _ :: evs => executed_update_types evs
  end.


(** The dump operations that were scheduled. *)
Fixpoint scheduled_dumps (evs : list Event) : list DumpOperation :=
  match evs with
  | [] => []
  | EvDumpAsync op _ _ :: evs => op :: scheduled_dumps evs
  | _ :: evs => scheduled_dumps evs
  end.

(** A dump task is in flight. *)
Definition dump_task_live (self : CacheUpdateTrait) : bool :=
  IsValid (dump_task (update_ self)) && negb (IsFinished (dump_task (update_ self))).

(** "The cache is empty", as [DoPeriodicUpdate] (line 242) and
    [ShouldDump] (line 326) test it. *)
Definition cache_empty (self : CacheUpdateTrait) : Prop :=
  last_update (update_ self) = 0.

(** [LoadFromDump] returned [true] during this bootstrap. *)
Definition dump_loaded (self : CacheUpdateTrait) (env : StartEnv) : bool :=
  dumps_enabled (GetConfig self) &&
  match latest_dump env with Some _ => true | None => false end.

(** [LoadFromDump]'s [update_time], when it returns [true]. *)
Definition loaded_update_time (self : CacheUpdateTrait) (env : StartEnv)
    : option TimePoint :=
  if dumps_enabled (GetConfig self) then latest_dump env else None.

(** ** Statements about the bootstrap *)

Definition first_update_was_run (evs : list Event) : bool :=
  existsb is_EvUpdate evs.

(** (a) a dump was loaded and [first_update_mode] is [kSkip], or (b) the
    caller passed [kNoFirstUpdate] and periodic updates are enabled. *)
Definition first_update_waived (self : CacheUpdateTrait) (flags : list Flag)
    (env : StartEnv) : bool :=
  (dump_loaded self env && is_kSkip (first_update_mode (GetConfig self))) ||
  (has_flag flags kNoFirstUpdate && periodic_update_enabled_ self).

(** "A synchronous first update is run unless (a) or (b)", for one call. *)
Definition first_update_rule (self : CacheUpdateTrait) (flags : list Flag)
    (env : StartEnv) : Prop :=
  first_update_was_run (events_of (StartPeriodicUpdates flags env self)) =
  negb (first_update_waived self flags env).





(** ** Statements about executions *)

(** Wall-clock instants do not precede what the cache has recorded: an
    update's [system_now] is not earlier than [last_modifying_update]
    (than the loaded dump, for the first update after a dump load). *)
Definition chronological (self : CacheUpdateTrait) (op : Operation) : Prop :=
  match op with
  | CallUpdate _ env | PeriodicTick env =>
      last_modifying_update (update_ self) <= system_now env
  | CallStartPeriodicUpdates _ env =>
      match loaded_update_time self env with
      | Some t => t <= system_now (first_update env)
      | None => last_modifying_update (update_ self) <= system_now (first_update env)
      end
  | _ => True
  end.


Definition update_invariant (self : CacheUpdateTrait) : Prop :=
  last_modifying_update (update_ self) <= last_update (update_ self).

Definition dump_invariant (self : CacheUpdateTrait) : Prop :=
  last_dumped_update_ self <= last_modifying_update (update_ self) /\
  match dump_task (update_ self) with
  | TaskRunning _ _ new_update_time =>
      last_dumped_update_ self <= new_update_time /\
      new_update_time <= last_modifying_update (update_ self)
  | _ => True
  end.

(** "[last_modifying_update <= last_update] holds after every operation",
    over the executions of a freshly constructed cache. *)
Definition update_invariant_always : Prop :=
  forall config enabled ops,
    update_invariant (run ops (Construct config enabled)).


(** "If dumps are disabled, or the cache was never loaded, or a previous
    dump task is still live, [DumpSyncDebug] schedules no dump operation
    and returns without waiting, leaving [last_dumped_update] unchanged." *)
Definition forced_dump_skipped_rule (self : CacheUpdateTrait)
    (outcome : Result bool) : Prop :=
  dumps_enabled (GetConfig self) = false \/
  cache_empty self \/
  dump_task_live self = true ->
  let r := DumpSyncDebug outcome self in
  scheduled_dumps (events_of r) = [] /\
  existsb is_EvDumpTaskWait (events_of r) = false /\
  last_dumped_update_ (state_of r) = last_dumped_update_ self.

(** ** Concrete scenarios *)

Definition scenario_config : CacheConfigStatic :=
  mkCacheConfigStatic 5 1 100 7 kOnlyFull kBestEffort false false true 0.

(** An update at wall-clock instant [now]. *)
Definition update_at (now : TimePoint) (modifies : bool)
    (throws : option exception) : UpdateEnv :=
  mkUpdateEnv now now now (mkDomainUpdate modifies throws).

(** The cache right after a first bootstrap with periodic updates. *)
Definition running_cache : CacheUpdateTrait :=
  step (CallStartPeriodicUpdates [] (mkStartEnv None (update_at 10 true None)))
       (Construct scenario_config true).

(** A warm start in [kRequired] mode that tolerates a failing first
    update: dump of instant 5 on disk, upstream down. *)
Definition warm_required_config : CacheConfigStatic :=
  mkCacheConfigStatic 5 1 100 7 kOnlyFull kRequired false true true 0.

Definition warm_start_upstream_down : StartEnv :=
  mkStartEnv (Some 5) (update_at 10 false (Some "upstream down"%string)).


(** What neither the dump engine nor a throwing update touches:
    everything but [dump_task], [cache_modified_] and
    [force_next_update_full_]. *)
Definition unchanged_update_state (self self' : CacheUpdateTrait) : Prop :=
  static_config_ self' = static_config_ self /\
  config_ self' = config_ self /\
  periodic_update_enabled_ self' = periodic_update_enabled_ self /\
  is_running_ self' = is_running_ self /\
  periodic_task_flags_ self' = periodic_task_flags_ self /\
  last_dumped_update_ self' = last_dumped_update_ self /\
  update_task_ self' = update_task_ self /\
  cleanup_task_ self' = cleanup_task_ self /\
  last_update (update_ self') = last_update (update_ self) /\
  last_modifying_update (update_ self') = last_modifying_update (update_ self) /\
  last_full_update (update_ self') = last_full_update (update_ self).

(** The object after a running dump task captured [new_update_time]
    and ended with [outcome]. *)
Definition finished (outcome : Result bool) (new_update_time : TimePoint)
    (self : CacheUpdateTrait) : CacheUpdateTrait :=
  match outcome with
  | Ok true =>
      set_update (set_dump_task (TaskFinished false) (update_ self))
                 (set_last_dumped_update new_update_time self)
  | Ok false => set_update (set_dump_task (TaskFinished false) (update_ self)) self
  | Throw _ => set_update (set_dump_task (TaskFinished true) (update_ self)) self
  end.

(** The facade call a dump task makes. *)
Definition task_event (operation_type : DumpOperation)
    (old_update_time new_update_time : TimePoint) : Event :=
  match operation_type with
  | kNewDump => EvDoDump new_update_time
  | kBumpTime => EvBumpDumpTime old_update_time new_update_time
  end.

(** Scenario 6 of the specification: a dump of the update at instant 10
    succeeds, then the tick at instant 20 modifies nothing. *)
Definition bump_scenario : list Operation :=
  [CallStartPeriodicUpdates [] (mkStartEnv None (update_at 10 true None));
   DumpTaskCompletes (Ok true);
   PeriodicTick (update_at 20 false None)].

(** The wall clock steps back from 20 to 10 between two updates. *)
Definition clock_steps_back (second_modifies : bool) : list Operation :=
  [CallStartPeriodicUpdates [] (mkStartEnv None (update_at 20 true None));
   DumpTaskCompletes (Ok true);
   CallUpdate kFull (update_at 10 second_modifies None)].

(** Two objects agree on what the invariants speak about. *)
Definition same_instants (self self' : CacheUpdateTrait) : Prop :=
  update_ self' = update_ self /\
  last_dumped_update_ self' = last_dumped_update_ self.


(** Every operation of [ops], run in turn from [self], is admissible. *)
Fixpoint all_admissible (admissible : CacheUpdateTrait -> Operation -> Prop)
    (ops : list Operation) (self : CacheUpdateTrait) : Prop :=
  match ops with
  | [] => True
  | op :: ops =>
      admissible self op /\ all_admissible admissible ops (step op self)
  end.

(** A chronological run: bootstrap at 10, the dump succeeds, ticks at 20
    and 30, a forced dump in between. *)
Definition chronological_scenario : list Operation :=
  [CallStartPeriodicUpdates [] (mkStartEnv None (update_at 10 true None));
   DumpTaskCompletes (Ok true);
   PeriodicTick (update_at 20 false None);
   CallDumpSyncDebug (Ok true);
   PeriodicTick (update_at 30 true None)].

(** ** Writing a dump *)

(** The write statistics of [statistics_.dump] that [DoDump] fills in
    (lines 377-381). *)
Record DumpWriteStatistics := mkDumpWriteStatistics {
  last_written_size : Z;
  last_nontrivial_write_duration : Duration;   (* milliseconds *)
  last_nontrivial_write_start_time : SteadyTimePoint
}.

(** How the [try] block of [DoDump] (lines 356-362) ends: the dump file is
    written and has [dump_size] bytes, or [GetAndWrite] throws
    [EmptyCacheError], or some step throws another [std::exception]. *)
Inductive WriteOutcome :=
| Written (dump_size : Z)
| WriteEmptyCache
| WriteError (e : exception).

Record DumpEnv := mkDumpEnv {
  dump_start : SteadyTimePoint;        (* steady_clock::now() on entry *)
  serialization : WriteOutcome;
  cleanup_throws : option exception;   (* dumper_->Cleanup() *)
  dump_finish : SteadyTimePoint        (* steady_clock::now() at line 380 *)
}.

(** The calls [DoDump] makes to [dumper_]. *)
Inductive DumperCall :=
| CallRegisterNewDump (update_time : TimePoint)
| CallCleanup.

Section DumpWriting.

(** The number of [steady_clock] ticks in a millisecond. *)
Variable steady_ticks_per_millisecond : Z.

(** [CacheUpdateTrait::DoDump] (lines 350-383). *)
Definition DoDump (update_time : TimePoint) (env : DumpEnv)
    (stats : DumpWriteStatistics)
    : Result bool * DumpWriteStatistics * list DumperCall :=
  match serialization env with
  | WriteEmptyCache => (Ok false, stats, [CallRegisterNewDump update_time])
  | WriteError _ => (Ok false, stats, [CallRegisterNewDump update_time])
  | Written dump_size =>
      match cleanup_throws env with
      | Some e => (Throw e, stats, [CallRegisterNewDump update_time; CallCleanup])
      | None =>
          (Ok true,
           mkDumpWriteStatistics dump_size
             (Z.quot (dump_finish env - dump_start env)
                     steady_ticks_per_millisecond)
             (dump_start env),
           [CallRegisterNewDump update_time; CallCleanup])
      end
  end.

End DumpWriting.

(** ** Further statements *)

Definition is_EvGetLatestDump (e : Event) : bool :=
  match e with EvGetLatestDump => true | _ => false end.

(** The periodic tasks run only on a running cache with periodic updates
    enabled, always both, with the settings of the current configuration;
    the task flags always include [kChaotic] and [kCritical]. *)
Definition tasks_consistent (self : CacheUpdateTrait) : Prop :=
  kChaotic (periodic_task_flags_ self) = true /\
  kCritical (periodic_task_flags_ self) = true /\
  match update_task_ self with
  | Some settings =>
      is_running_ self = true /\
      periodic_update_enabled_ self = true /\
      settings = GetPeriodicTaskSettings self (config_ self) /\
      cleanup_task_ self = Some (cleanup_interval (config_ self))
  | None => cleanup_task_ self = None
  end.

(** While the statistics say the cache is current from a dump, a dump was
    loaded and the recorded instants are the dump's. *)
Definition dump_statistics_consistent (self : CacheUpdateTrait) : Prop :=
  is_current_from_dump (statistics_dump self) = true ->
  is_loaded (statistics_dump self) = true /\
  last_update (update_ self) = last_modifying_update (update_ self).

(** A dump of instant 5 on disk, an incremental-only cache that asks for
    a full second update. *)
Definition incremental_config : CacheConfigStatic :=
  mkCacheConfigStatic 5 1 100 7 kOnlyIncremental kBestEffort true false true 0.


(** The fields that only [StartPeriodicUpdates], [StopPeriodicUpdates]
    and [SetConfig] write. *)
Definition same_lifecycle (self self' : CacheUpdateTrait) : Prop :=
  static_config_ self' = static_config_ self /\
  config_ self' = config_ self /\
  periodic_update_enabled_ self' = periodic_update_enabled_ self /\
  is_running_ self' = is_running_ self /\
  periodic_task_flags_ self' = periodic_task_flags_ self /\
  update_task_ self' = update_task_ self /\
  cleanup_task_ self' = cleanup_task_ self /\
  cache_invalidator_holder_ self' = cache_invalidator_holder_ self.

(** A computation schedules at most one dump, and none while a dump task
    is in flight: that task is then still the same running task
    afterwards, or it has finished. *)
Definition one_dump_at_a_time {A} (self : CacheUpdateTrait)
    (r : Result A * CacheUpdateTrait * list Event) : Prop :=
  (List.length (scheduled_dumps (events_of r)) <= 1)%nat /\
  forall operation_type old_update_time new_update_time,
    dump_task (update_ self) =
      TaskRunning operation_type old_update_time new_update_time ->
    scheduled_dumps (events_of r) = [] /\
    (dump_task (update_ (state_of r)) =
       TaskRunning operation_type old_update_time new_update_time \/
     IsFinished (dump_task (update_ (state_of r))) = true).

(** The calls that look for a dump on disk or schedule a dump task. *)
Definition is_dump_request (e : Event) : bool :=
  match e with
  | EvGetLatestDump | EvDumpAsync _ _ _ => true
  | _ => false
  end.

(** ** Equations of the member functions *)

(** The object after a [DoUpdate] whose domain [Update] returned. *)
Definition updated (env : UpdateEnv) (update_type : UpdateType)
    (self : CacheUpdateTrait) : CacheUpdateTrait :=
  let modified := calls_OnCacheModified (domain env) || cache_modified_ self in
  let u := update_ self in
  set_statistics_dump (mkDumpStatistics (is_loaded (statistics_dump self)) false)
    (set_cache_modified false
       (set_update
          (mkUpdateData (system_now env)
             (if modified then system_now env else last_modifying_update u)
             (if UpdateType_eqb update_type kFull then steady_now env
              else last_full_update u)
             (dump_task u))
          self)).

(** The object after the dump engine scheduled [operation_type]. *)
Definition scheduled (operation_type : DumpOperation) (self : CacheUpdateTrait)
    : CacheUpdateTrait :=
  set_update
    (set_dump_task
       (TaskRunning operation_type (GetLastDumpedUpdate self)
                    (last_modifying_update (update_ self)))
       (update_ self))
    self.

Definition dump_operation (self : CacheUpdateTrait) : DumpOperation :=
  if GetLastDumpedUpdate self =? last_modifying_update (update_ self)
  then kBumpTime else kNewDump.

(** The object after [LoadFromDump] read a dump of [update_time]. *)
Definition loaded (update_time : TimePoint) (self : CacheUpdateTrait)
    : CacheUpdateTrait :=
  set_statistics_dump (mkDumpStatistics true true)
    (set_last_dumped_update (Z.max (last_dumped_update_ self) update_time)
       (set_update
          (mkUpdateData update_time update_time
             (last_full_update (update_ self)) (dump_task (update_ self)))
          self)).

(** The condition of line 116 under which the first update is run. *)
Definition runs_first_update (self : CacheUpdateTrait) (flags : list Flag)
    (env : StartEnv) : bool :=
  (negb (dump_loaded self env) ||
   negb (is_kSkip (first_update_mode (GetConfig self)))) &&
  (negb (has_flag flags kNoFirstUpdate) || negb (periodic_update_enabled_ self)).

(** The two branches of lines 126-133 that swallow the exception. *)
Definition tolerates_failure (self : CacheUpdateTrait) (env : StartEnv) : bool :=
  (dump_loaded self env &&
   negb (is_kRequired (first_update_mode (GetConfig self)))) ||
  allow_first_update_failure (static_config_ self).

(** The object after lines 147-152. *)
Definition escalated (was_loaded : bool) (config : CacheConfigStatic)
    (self : CacheUpdateTrait) : CacheUpdateTrait :=
  if was_loaded && is_kOnlyIncremental (allowed_update_types config) &&
     force_full_second_update config
  then set_periodic_task_flags
         (mkPeriodicTaskFlags (kChaotic (periodic_task_flags_ self))
                              (kCritical (periodic_task_flags_ self)) true)
         (set_force_next_update_full true self)
  else self.

(** The object and the calls of lines 154-166. *)
Definition tasks_started (enabled : bool) (config : CacheConfigStatic)
    (self : CacheUpdateTrait) : CacheUpdateTrait :=
  if enabled
  then set_cleanup_task (Some (cleanup_interval config))
         (set_update_task (Some (GetPeriodicTaskSettings self config)) self)
  else self.

Definition start_events (enabled : bool) (config : CacheConfigStatic)
    (self : CacheUpdateTrait) : list Event :=
  if enabled
  then [EvUpdateTaskStart (GetPeriodicTaskSettings self config);
        EvCleanupTaskStart (cleanup_interval config)]
  else [].

Lemma result_of_triple {A} (r : Result A) self evs : result_of (r, self, evs) = r.
Proof. reflexivity. Qed.

Lemma state_of_triple {A} (r : Result A) self evs : state_of (r, self, evs) = self.
Proof. reflexivity. Qed.

Lemma events_of_triple {A} (r : Result A) self evs : events_of (r, self, evs) = evs.
Proof. reflexivity. Qed.

Ltac project_triples :=
  rewrite ?result_of_triple, ?state_of_triple, ?events_of_triple.

Lemma DoUpdate_eq env update_type self :
  DoUpdate env update_type self =
  let ev := EvUpdate update_type (last_update (update_ self)) (system_now env) in
  match update_throws (domain env) with
  | Some e =>
      (Throw e,
       if calls_OnCacheModified (domain env) then set_cache_modified true self
       else self,
       [ev])
  | None => (Ok tt, updated env update_type self, [ev])
  end.
Proof.
  destruct env as [st sn now [m t]], self as [sc c pe ir fn pf cm ldu u ut ct ih sd].
  destruct u as [lu lmu lfu dt].
  unfold DoUpdate, DomainUpdateCall, updated; cbn.
  destruct m, t, cm, update_type; reflexivity.
Qed.

Lemma DumpAsyncIfNeeded_eq type config self :
  DumpAsyncIfNeeded type config self =
  if ShouldDump self type (update_ self) config
  then (Ok tt, scheduled (dump_operation self) self,
        EvDumpAsyncIfNeeded type ::
        (if IsValid (dump_task (update_ self)) then [EvDumpTaskGet] else []) ++
        [EvDumpAsync (dump_operation self) (GetLastDumpedUpdate self)
                     (last_modifying_update (update_ self))])
  else (Ok tt, self, [EvDumpAsyncIfNeeded type]).
Proof.
  destruct self as [sc c pe ir fn pf cm ldu u ut ct ih sd].
  destruct u as [lu lmu lfu dt].
  unfold DumpAsyncIfNeeded, DumpAsync, ShouldDump, scheduled, dump_operation,
    GetLastDumpedUpdate, bind, emit, get, when, ret; cbn.
  destruct (negb (dumps_enabled config)); [reflexivity|].
  destruct (lu =? 0); [reflexivity|].
  destruct (DumpType_eqb type kHonorDumpInterval && (ldu >? lu - min_dump_interval config));
    [reflexivity|].
  destruct dt as [|op o n|b]; cbn; try reflexivity;
    destruct (ldu =? lmu); reflexivity.
Qed.

Lemma DumpAsyncIfNeeded_no_throw type config self :
  result_of (DumpAsyncIfNeeded type config self) = Ok tt.
Proof.
  rewrite DumpAsyncIfNeeded_eq.
  destruct (ShouldDump self type (update_ self) config); reflexivity.
Qed.

(** [ShouldDump] refuses while a dump task is in flight (lines 341-345),
    and a forced dump is refused once dumps are disabled or the cache was
    never loaded as well. *)
Lemma ShouldDump_live_refused self type config :
  dump_task_live self = true ->
  ShouldDump self type (update_ self) config = false.
Proof.
  unfold dump_task_live, ShouldDump. intros ->.
  destruct (negb (dumps_enabled config)); [reflexivity|].
  destruct (last_update (update_ self) =? 0); [reflexivity|].
  destruct (DumpType_eqb type kHonorDumpInterval &&
            (GetLastDumpedUpdate self >?
             last_update (update_ self) - min_dump_interval config));
    reflexivity.
Qed.

Lemma DoPeriodicUpdate_eq env self :
  DoPeriodicUpdate env self =
  let config := GetConfig self in
  let force_full_update :=
    force_next_update_full_ self || (last_update (update_ self) =? 0) in
  let update_type :=
    periodic_update_type force_full_update config (update_ self)
                         (steady_now_tick env) in
  let d := DoUpdate env update_type (set_force_next_update_full false self) in
  let a := DumpAsyncIfNeeded kHonorDumpInterval config (state_of d) in
  (result_of d, state_of a, events_of d ++ events_of a).
Proof.
  unfold DoPeriodicUpdate, bind, try_catch, get, exchange_force_next_update_full, throw.
  cbv beta iota zeta.
  change (update_ (set_force_next_update_full false self)) with (update_ self).
  set (t := periodic_update_type _ _ _ _).
  destruct (DoUpdate env t (set_force_next_update_full false self))
    as [[[[]|e] s1] evs1] eqn:E; unfold state_of, result_of, events_of; cbn [fst snd].
  - pose proof (DumpAsyncIfNeeded_no_throw kHonorDumpInterval (GetConfig self) s1) as H.
    destruct (DumpAsyncIfNeeded kHonorDumpInterval (GetConfig self) s1) as [[r s2] evs2].
    unfold result_of in H; cbn in H; subst r. reflexivity.
  - pose proof (DumpAsyncIfNeeded_no_throw kHonorDumpInterval (GetConfig self) s1) as H.
    destruct (DumpAsyncIfNeeded kHonorDumpInterval (GetConfig self) s1) as [[r s2] evs2].
    unfold result_of in H; cbn in H; subst r. rewrite app_nil_r. reflexivity.
Qed.

(** ** What each function leaves alone *)

Lemma DoUpdate_events env update_type self :
  events_of (DoUpdate env update_type self) =
  [EvUpdate update_type (last_update (update_ self)) (system_now env)].
Proof. rewrite DoUpdate_eq. destruct (update_throws (domain env)); reflexivity. Qed.

Lemma DoUpdate_result env update_type self :
  result_of (DoUpdate env update_type self) =
  match update_throws (domain env) with Some e => Throw e | None => Ok tt end.
Proof. rewrite DoUpdate_eq. destruct (update_throws (domain env)); reflexivity. Qed.

Lemma DoUpdate_force_next_update_full env update_type self :
  force_next_update_full_ (state_of (DoUpdate env update_type self)) =
  force_next_update_full_ self.
Proof.
  rewrite DoUpdate_eq.
  destruct (update_throws (domain env)), (calls_OnCacheModified (domain env));
    reflexivity.
Qed.

Lemma DumpAsyncIfNeeded_force_next_update_full type config self :
  force_next_update_full_ (state_of (DumpAsyncIfNeeded type config self)) =
  force_next_update_full_ self.
Proof.
  rewrite DumpAsyncIfNeeded_eq.
  destruct (ShouldDump self type (update_ self) config); reflexivity.
Qed.

Lemma executed_update_types_app evs1 evs2 :
  executed_update_types (evs1 ++ evs2) =
  executed_update_types evs1 ++ executed_update_types evs2.
Proof.
  induction evs1 as [|ev evs1 IH]; [reflexivity|].
  destruct ev; cbn; rewrite IH; reflexivity.
Qed.


Lemma scheduled_dumps_app evs1 evs2 :
  scheduled_dumps (evs1 ++ evs2) = scheduled_dumps evs1 ++ scheduled_dumps evs2.
Proof.
  induction evs1 as [|ev evs1 IH]; [reflexivity|].
  destruct ev; cbn; rewrite IH; reflexivity.
Qed.

Lemma DumpAsyncIfNeeded_runs_no_update type config self :
  executed_update_types (events_of (DumpAsyncIfNeeded type config self)) = [].
Proof.
  rewrite DumpAsyncIfNeeded_eq.
  destruct (ShouldDump self type (update_ self) config); [|reflexivity].
  destruct (IsValid (dump_task (update_ self))); reflexivity.
Qed.



(** ** The update driver *)



(** ** The dump engine *)


(** ** The bootstrap *)

Lemma LoadFromDump_eq latest config self :
  LoadFromDump latest config self =
  if dumps_enabled config then
    match latest with
    | Some update_time => (Ok true, loaded update_time self, [EvGetLatestDump])
    | None => (Ok false, self, [EvGetLatestDump])
    end
  else (Ok false, self, []).
Proof.
  unfold LoadFromDump.
  destruct (dumps_enabled config); [|reflexivity].
  destruct latest; reflexivity.
Qed.

Lemma StartPeriodicUpdates_eq flags env self :
  StartPeriodicUpdates flags env self =
  if is_running_ self then (Ok tt, set_is_running true self, [])
  else
    let config := GetConfig self in
    let enabled := periodic_update_enabled_ self in
    let l := LoadFromDump (latest_dump env) config
               (set_cache_invalidator_holder true (set_is_running true self)) in
    let go := fun s evs =>
      let s' := escalated (dump_loaded self env) config s in
      (Ok tt, tasks_started enabled config s',
       events_of l ++ evs ++ start_events enabled config s') in
    if runs_first_update self flags env then
      let p := DoPeriodicUpdate (first_update env) (state_of l) in
      match result_of p with
      | Ok _ => go (state_of p) (events_of p)
      | Throw e =>
          if tolerates_failure self env then go (state_of p) (events_of p)
          else (Throw e, set_is_running false (state_of p),
                events_of l ++ events_of p)
      end
    else go (state_of l) [].
Proof.
  unfold StartPeriodicUpdates, bind at 1, exchange_is_running.
  destruct (is_running_ self) eqn:Hrun; [reflexivity|].
  unfold runs_first_update, tolerates_failure, dump_loaded, escalated,
    tasks_started, start_events, GetConfig.
  cbv zeta.
  rewrite LoadFromDump_eq.
  unfold bind, try_catch, get, modify, when, ret, throw, emit.
  cbn [GetConfig config_ set_is_running set_cache_invalidator_holder
       periodic_update_enabled_ static_config_].
  rewrite LoadFromDump_eq.
  destruct (dumps_enabled (config_ self)), (latest_dump env) as [t|];
    cbn [andb orb negb]; project_triples;
    destruct (has_flag flags kNoFirstUpdate), (periodic_update_enabled_ self),
      (first_update_mode (config_ self));
    cbn [andb orb negb is_kSkip is_kRequired]; project_triples;
    try (match goal with
         | |- context [DoPeriodicUpdate ?e ?s] =>
             destruct (DoPeriodicUpdate e s) as [[[[]|ex] s1] evs1]
         end; project_triples;
         cbn [andb orb negb];
         try destruct (allow_first_update_failure (static_config_ self)));
    destruct (is_kOnlyIncremental (allowed_update_types (config_ self))),
      (force_full_second_update (config_ self));
    cbn [andb orb negb app]; rewrite ?app_nil_r, <- ?app_assoc; reflexivity.
Qed.

Lemma LoadFromDump_state env self0 self :
  config_ self0 = config_ self ->
  state_of (LoadFromDump (latest_dump env) (GetConfig self) self0) =
  match loaded_update_time self env with
  | Some t => loaded t self0
  | None => self0
  end.
Proof.
  intros _. rewrite LoadFromDump_eq. unfold loaded_update_time.
  destruct (dumps_enabled (GetConfig self)); [|reflexivity].
  destruct (latest_dump env); reflexivity.
Qed.

Lemma LoadFromDump_events latest config self :
  first_update_was_run (events_of (LoadFromDump latest config self)) = false /\
  existsb is_task_start (events_of (LoadFromDump latest config self)) = false.
Proof.
  rewrite LoadFromDump_eq.
  destruct (dumps_enabled config); [destruct latest|]; split; reflexivity.
Qed.


Lemma DoPeriodicUpdate_first_event env self :
  exists update_type rest,
    events_of (DoPeriodicUpdate env self) =
    EvUpdate update_type (last_update (update_ self)) (system_now env) :: rest.
Proof.
  rewrite DoPeriodicUpdate_eq. cbv zeta. project_triples.
  rewrite DoUpdate_events. do 2 eexists. reflexivity.
Qed.




Lemma unchanged_update_state_refl self : unchanged_update_state self self.
Proof. repeat split. Qed.

Lemma unchanged_update_state_trans s1 s2 s3 :
  unchanged_update_state s1 s2 -> unchanged_update_state s2 s3 ->
  unchanged_update_state s1 s3.
Proof.
  unfold unchanged_update_state. intros H12 H23.
  decompose [and] H12; decompose [and] H23.
  repeat split; etransitivity; eassumption.
Qed.

Lemma DumpAsyncIfNeeded_unchanged type config self :
  unchanged_update_state self (state_of (DumpAsyncIfNeeded type config self)).
Proof.
  rewrite DumpAsyncIfNeeded_eq.
  destruct (ShouldDump self type (update_ self) config);
    project_triples; repeat split.
Qed.

Lemma DoUpdate_failure_unchanged env update_type self e :
  update_throws (domain env) = Some e ->
  unchanged_update_state self (state_of (DoUpdate env update_type self)).
Proof.
  intros H. rewrite DoUpdate_eq, H. cbv zeta. project_triples.
  destruct (calls_OnCacheModified (domain env)); repeat split.
Qed.

Lemma DoPeriodicUpdate_failure env self e :
  update_throws (domain env) = Some e ->
  result_of (DoPeriodicUpdate env self) = Throw e /\
  unchanged_update_state self (state_of (DoPeriodicUpdate env self)).
Proof.
  intros H. rewrite DoPeriodicUpdate_eq. cbv zeta. project_triples.
  split.
  - rewrite DoUpdate_result, H. reflexivity.
  - eapply unchanged_update_state_trans; [|apply DumpAsyncIfNeeded_unchanged].
    eapply unchanged_update_state_trans;
      [|eapply DoUpdate_failure_unchanged; eassumption].
    repeat split.
Qed.

Lemma bootstrap_tail_fields enabled was_loaded config self :
  let self' := tasks_started enabled config (escalated was_loaded config self) in
  is_running_ self' = is_running_ self /\ update_ self' = update_ self.
Proof.
  unfold tasks_started, escalated.
  destruct enabled,
    (was_loaded && is_kOnlyIncremental (allowed_update_types config) &&
     force_full_second_update config); split; reflexivity.
Qed.

Lemma start_events_start_tasks enabled config self :
  existsb is_task_start (start_events enabled config self) = enabled /\
  first_update_was_run (start_events enabled config self) = false.
Proof. destruct enabled; split; reflexivity. Qed.

Lemma runs_first_update_waived self flags env :
  runs_first_update self flags env = negb (first_update_waived self flags env).
Proof.
  unfold runs_first_update, first_update_waived.
  destruct (dump_loaded self env), (is_kSkip (first_update_mode (GetConfig self))),
    (has_flag flags kNoFirstUpdate), (periodic_update_enabled_ self); reflexivity.
Qed.

(** The events of a bootstrap contain a domain update exactly when line
    116 lets the first update run. *)
Lemma StartPeriodicUpdates_runs_first_update flags env self :
  is_running_ self = false ->
  first_update_was_run (events_of (StartPeriodicUpdates flags env self)) =
  runs_first_update self flags env.
Proof.
  intros Hrun. rewrite StartPeriodicUpdates_eq, Hrun. cbv zeta.
  set (l := LoadFromDump _ _ _).
  destruct (LoadFromDump_events (latest_dump env) (GetConfig self)
              (set_cache_invalidator_holder true (set_is_running true self)))
    as [Hl _]. fold l in Hl.
  unfold first_update_was_run in *.
  destruct (runs_first_update self flags env).
  - destruct (DoPeriodicUpdate_first_event (first_update env) (state_of l))
      as (t & rest & Hev).
    destruct (result_of (DoPeriodicUpdate (first_update env) (state_of l)));
      [|destruct (tolerates_failure self env)];
      project_triples; rewrite !existsb_app, Hl, Hev; reflexivity.
  - project_triples. rewrite !existsb_app, Hl.
    destruct (start_events_start_tasks (periodic_update_enabled_ self) (GetConfig self)
                (escalated (dump_loaded self env) (GetConfig self) (state_of l)))
      as [_ Hs].
    unfold first_update_was_run in Hs. rewrite Hs. reflexivity.
Qed.

(** C2 (as amended). A call of [StartPeriodicUpdates] on a cache that is
    not already running runs a synchronous first update unless (a) a dump
    was loaded and [first_update_mode] is [kSkip], or (b) the caller
    passed [kNoFirstUpdate] and periodic updates are enabled. *)
Theorem StartPeriodicUpdates_first_update self flags env :
  is_running_ self = false ->
  first_update_rule self flags env.
Proof.
  intros Hrun. unfold first_update_rule.
  rewrite StartPeriodicUpdates_runs_first_update by assumption.
  apply runs_first_update_waived.
Qed.

Lemma StartPeriodicUpdates_first_update_witness :
  is_running_ (Construct scenario_config true) = false /\
  first_update_rule (Construct scenario_config true) [kNoFirstUpdate]
    (mkStartEnv (Some 5) (update_at 10 true None)).
Proof.
  split; [reflexivity|].
  apply (StartPeriodicUpdates_first_update (Construct scenario_config true)
           [kNoFirstUpdate] (mkStartEnv (Some 5) (update_at 10 true None))).
  reflexivity.
Defined.

(** C2 (as stated) fails: a second call on a running cache returns at the
    guard of line 99 and runs no update, though neither (a) nor (b)
    holds. *)
Lemma first_update_rule_fails_when_running :
  is_running_ running_cache = true /\
  ~ first_update_rule running_cache []
      (mkStartEnv None (update_at 20 true None)).
Proof.
  split; [reflexivity|].
  unfold first_update_rule. vm_compute. discriminate.
Qed.








(** ** Dump tasks *)

Lemma RunDumpTask_eq outcome self :
  RunDumpTask outcome self =
  match dump_task (update_ self) with
  | TaskRunning operation_type old_update_time new_update_time =>
      (Ok tt, finished outcome new_update_time self,
       [task_event operation_type old_update_time new_update_time])
  | _ => (Ok tt, self, [])
  end.
Proof.
  unfold RunDumpTask, bind at 1, get.
  destruct (dump_task (update_ self)) as [|op o n|b]; try reflexivity.
  destruct op, outcome as [[]|e]; reflexivity.
Qed.

Lemma DumpAsyncIfNeeded_scheduled_dumps type config self :
  scheduled_dumps (events_of (DumpAsyncIfNeeded type config self)) =
  if ShouldDump self type (update_ self) config then [dump_operation self] else [].
Proof.
  rewrite DumpAsyncIfNeeded_eq.
  destruct (ShouldDump self type (update_ self) config); [|reflexivity].
  destruct (IsValid (dump_task (update_ self))); reflexivity.
Qed.

(** Whenever a dump is due, it is a [kBumpTime] if [last_dumped_update]
    equals [last_modifying_update] and a [kNewDump] otherwise. *)
Lemma DumpAsyncIfNeeded_bump_or_new type config self :
  ShouldDump self type (update_ self) config = true ->
  (GetLastDumpedUpdate self = last_modifying_update (update_ self) ->
   scheduled_dumps (events_of (DumpAsyncIfNeeded type config self)) = [kBumpTime]) /\
  (GetLastDumpedUpdate self <> last_modifying_update (update_ self) ->
   scheduled_dumps (events_of (DumpAsyncIfNeeded type config self)) = [kNewDump]).
Proof.
  intros H. rewrite DumpAsyncIfNeeded_scheduled_dumps, H. unfold dump_operation.
  split; intros Hc.
  - apply Z.eqb_eq in Hc. rewrite Hc. reflexivity.
  - apply Z.eqb_neq in Hc. rewrite Hc. reflexivity.
Qed.

(** The two instants a [kBumpTime] task captures (lines 401-402) are
    always the same one. *)
Lemma DumpAsyncIfNeeded_bump_time_instants type config self old new :
  In (EvDumpAsync kBumpTime old new)
     (events_of (DumpAsyncIfNeeded type config self)) ->
  old = new.
Proof.
  rewrite DumpAsyncIfNeeded_eq. unfold dump_operation.
  destruct (ShouldDump self type (update_ self) config); project_triples.
  - destruct (Z.eqb_spec (GetLastDumpedUpdate self)
                         (last_modifying_update (update_ self))) as [Heq | Hneq];
      destruct (IsValid (dump_task (update_ self))); cbn;
      intuition (try discriminate); congruence.
  - cbn. intuition discriminate.
Qed.

(** C5 (the code at the failing input). After the dump of the update at
    [T_prev = 10] succeeded and the update at [T_curr = 20] modified
    nothing, the dump engine schedules a [kBumpTime], but with
    [old = new = 10]: the facade rename is invoked with [(10, 10)] and
    [last_dumped_update] stays at 10 instead of becoming 20. *)
Theorem bump_time_keeps_old_instant :
  let dumped := run (firstn 2 bump_scenario) (Construct scenario_config true) in
  let self := run bump_scenario (Construct scenario_config true) in
  let r := perform (DumpTaskCompletes (Ok true)) self in
  last_dumped_update_ dumped = 10 /\
  last_update (update_ self) = 20 /\
  cache_modified_ self = false /\
  dump_task (update_ self) = TaskRunning kBumpTime 10 10 /\
  events_of r = [EvBumpDumpTime 10 10] /\
  last_dumped_update_ (state_of r) = 10.
Proof. vm_compute. repeat split. Qed.

(** C10 (as stated) fails: with a previous dump task still live,
    [DumpSyncDebug] schedules nothing but waits for that task, whose
    success moves [last_dumped_update] from 0 to 10. *)
Lemma forced_dump_skipped_rule_fails_on_live_task :
  let r := DumpSyncDebug (Ok true) running_cache in
  dump_task_live running_cache = true /\
  events_of r = [EvDumpAsyncIfNeeded kForced; EvDumpTaskWait; EvDoDump 10] /\
  last_dumped_update_ running_cache = 0 /\
  last_dumped_update_ (state_of r) = 10 /\
  ~ forced_dump_skipped_rule running_cache (Ok true).
Proof.
  do 4 (split; [reflexivity|]).
  intros H. unfold forced_dump_skipped_rule in H.
  assert (Hl : dump_task_live running_cache = true) by reflexivity.
  destruct (H (or_intror (or_intror Hl))) as (_ & Hw & _).
  vm_compute in Hw. discriminate.
Qed.

Lemma DumpSyncDebug_eq outcome self :
  DumpSyncDebug outcome self =
  let a := DumpAsyncIfNeeded kForced (GetConfig self) self in
  if IsValid (dump_task (update_ (state_of a)))
  then let w := RunDumpTask outcome (state_of a) in
       (Ok tt, state_of w, events_of a ++ EvDumpTaskWait :: events_of w)
  else (Ok tt, state_of a, events_of a).
Proof.
  unfold DumpSyncDebug, Wait, bind, get, when, ret, emit. cbv zeta.
  pose proof (DumpAsyncIfNeeded_no_throw kForced (GetConfig self) self) as Ha.
  destruct (DumpAsyncIfNeeded kForced (GetConfig self) self) as [[ra sa] ea].
  unfold result_of in Ha; cbn in Ha; subst ra. project_triples.
  destruct (IsValid (dump_task (update_ sa))).
  - rewrite RunDumpTask_eq.
    destruct (dump_task (update_ sa)); project_triples; reflexivity.
  - rewrite app_nil_r. reflexivity.
Qed.

Lemma ShouldDump_forced_refused self config :
  dumps_enabled config = false \/
  last_update (update_ self) = 0 \/
  dump_task_live self = true ->
  ShouldDump self kForced (update_ self) config = false.
Proof.
  intros [H | [H | H]].
  - unfold ShouldDump. rewrite H. reflexivity.
  - unfold ShouldDump. apply Z.eqb_eq in H. rewrite H.
    destruct (negb (dumps_enabled config)); reflexivity.
  - apply ShouldDump_live_refused, H.
Qed.

(** C10 (as amended). [DumpSyncDebug] forces a dump past the
    [min_dump_interval] check only: if dumps are disabled, or
    [last_update] is the zero instant, or a previous dump task is still
    live, it schedules no dump operation.  It then calls [Wait()] on the
    dump task handle whenever that handle is valid: for a task still live
    this blocks until the task ends, and [last_dumped_update] becomes what
    that task makes of it; when no task was live the object is left as it
    was. *)
Theorem DumpSyncDebug_when_refused self outcome :
  dumps_enabled (GetConfig self) = false \/
  cache_empty self \/
  dump_task_live self = true ->
  let r := DumpSyncDebug outcome self in
  scheduled_dumps (events_of r) = [] /\
  existsb is_EvDumpTaskWait (events_of r) = IsValid (dump_task (update_ self)) /\
  (dump_task_live self = false ->
   state_of r = self) /\
  (forall operation_type old_update_time new_update_time,
     dump_task (update_ self) =
       TaskRunning operation_type old_update_time new_update_time ->
     state_of r = finished outcome new_update_time self /\
     last_dumped_update_ (state_of r) =
       match outcome with
       | Ok true => new_update_time
       | _ => last_dumped_update_ self
       end).
Proof.
  intros H r. subst r.
  apply ShouldDump_forced_refused in H.
  rewrite DumpSyncDebug_eq. cbv zeta.
  rewrite DumpAsyncIfNeeded_eq, H. project_triples.
  rewrite RunDumpTask_eq. unfold dump_task_live.
  destruct (dump_task (update_ self)) as [|[] o n|b] eqn:Ht;
    cbn [IsValid IsFinished andb negb]; project_triples;
    (split; [reflexivity|]); (split; [reflexivity|]); split;
    try discriminate; try reflexivity.
  all: intros op' o' n' Heq; injection Heq as <- <- <-;
    split; [reflexivity|]; destruct outcome as [[]|e]; reflexivity.
Qed.

Lemma DumpSyncDebug_when_refused_witness :
  let r := DumpSyncDebug (Ok true) running_cache in
  scheduled_dumps (events_of r) = [] /\
  existsb is_EvDumpTaskWait (events_of r) = true /\
  last_dumped_update_ running_cache = 0 /\
  last_dumped_update_ (state_of r) = 10.
Proof.
  destruct (DumpSyncDebug_when_refused running_cache (Ok true)
              (or_intror (or_intror eq_refl))) as (Hs & Hw & _ & Hf).
  destruct (Hf kNewDump 0 10 eq_refl) as [_ Hl].
  repeat split; assumption.
Defined.

Lemma StopPeriodicUpdates_eq outcome self :
  StopPeriodicUpdates outcome self =
  if is_running_ self then
    let stopped :=
      set_cleanup_task None (set_update_task None (set_is_running false self)) in
    match dump_task (update_ self) with
    | TaskRunning operation_type old_update_time new_update_time =>
        (Ok tt, finished outcome new_update_time stopped,
         [EvUpdateTaskStop; EvCleanupTaskStop; EvDumpTaskRequestCancel;
          EvDumpTaskWait;
          task_event operation_type old_update_time new_update_time])
    | _ => (Ok tt, stopped, [EvUpdateTaskStop; EvCleanupTaskStop])
    end
  else (Ok tt, set_is_running false self, []).
Proof.
  unfold StopPeriodicUpdates, Wait, bind at 1, exchange_is_running.
  destruct (is_running_ self); [|reflexivity]. cbn [negb].
  unfold bind, emit, modify, get, when, ret. cbv zeta.
  cbn [update_ set_cleanup_task set_update_task set_is_running].
  destruct (dump_task (update_ self)) as [|op o n|b] eqn:Ht;
    cbn [IsValid IsFinished andb negb]; try reflexivity.
  rewrite RunDumpTask_eq.
  cbn [update_ set_cleanup_task set_update_task set_is_running].
  rewrite Ht. reflexivity.
Qed.

Lemma SetConfig_eq merged self :
  exists self',
    SetConfig merged self = (Ok tt, self', []) /\
    update_ self' = update_ self /\
    last_dumped_update_ self' = last_dumped_update_ self.
Proof. eexists. repeat split. Qed.

(** ** Explicit updates *)

Lemma periodic_update_type_kOnlyFull force config update now :
  allowed_update_types config = kOnlyFull ->
  periodic_update_type force config update now = kFull.
Proof.
  intros H. unfold periodic_update_type. rewrite H. destruct force; reflexivity.
Qed.

Lemma DoPeriodicUpdate_executed env self :
  executed_update_types (events_of (DoPeriodicUpdate env self)) =
  [periodic_update_type
     (force_next_update_full_ self || (last_update (update_ self) =? 0))
     (GetConfig self) (update_ self) (steady_now_tick env)].
Proof.
  rewrite DoPeriodicUpdate_eq. cbv zeta. project_triples.
  rewrite executed_update_types_app, DumpAsyncIfNeeded_runs_no_update,
    DoUpdate_events. reflexivity.
Qed.

Lemma Update_eq env requested self :
  Update env requested self =
  DoUpdate env
    match allowed_update_types (GetConfig self), requested with
    | kOnlyFull, kIncremental => kFull
    | _, _ => requested
    end self.
Proof.
  unfold Update, bind, get. cbv zeta.
  destruct (DoUpdate env _ self) as [[r s] evs]. rewrite app_nil_l. reflexivity.
Qed.

Lemma LoadFromDump_config latest config self :
  config_ (state_of (LoadFromDump latest config self)) = config_ self.
Proof.
  rewrite LoadFromDump_eq.
  destruct (dumps_enabled config); [destruct latest|]; reflexivity.
Qed.

Lemma LoadFromDump_runs_no_update latest config self :
  executed_update_types (events_of (LoadFromDump latest config self)) = [].
Proof.
  rewrite LoadFromDump_eq.
  destruct (dumps_enabled config); [destruct latest|]; reflexivity.
Qed.

Lemma start_events_run_no_update enabled config self :
  executed_update_types (start_events enabled config self) = [].
Proof. destruct enabled; reflexivity. Qed.

(** Under [kOnlyFull] no operation runs the domain update with type
    Incremental. *)
Lemma kOnlyFull_never_incremental op self :
  allowed_update_types (GetConfig self) = kOnlyFull ->
  ~ In kIncremental (executed_update_types (events_of (perform op self))).
Proof.
  intros Hfull.
  assert (Hp : forall env s, config_ s = config_ self ->
            executed_update_types (events_of (DoPeriodicUpdate env s)) = [kFull]).
  { intros env s Hc. rewrite DoPeriodicUpdate_executed.
    rewrite periodic_update_type_kOnlyFull; [reflexivity|].
    unfold GetConfig in *. rewrite Hc. exact Hfull. }
  destruct op as [flags env|outcome|merged|requested env|outcome| |env|outcome];
    cbn [perform].
  - rewrite StartPeriodicUpdates_eq. cbv zeta.
    destruct (is_running_ self); [intros []|].
    set (l := LoadFromDump _ _ _).
    assert (Hl : executed_update_types (events_of l) = [])
      by apply LoadFromDump_runs_no_update.
    assert (Hc : config_ (state_of l) = config_ self)
      by (subst l; rewrite LoadFromDump_config; reflexivity).
    specialize (Hp (first_update env) (state_of l) Hc).
    destruct (runs_first_update self flags env);
      [destruct (result_of (DoPeriodicUpdate (first_update env) (state_of l)));
       [|destruct (tolerates_failure self env)]|];
      project_triples;
      rewrite ?executed_update_types_app, ?Hl, ?Hp, ?start_events_run_no_update;
      cbn; intuition discriminate.
  - rewrite StopPeriodicUpdates_eq.
    destruct (is_running_ self); [|intros []]. cbv zeta.
    destruct (dump_task (update_ self)) as [|[] o n|b]; intros [].
  - destruct (SetConfig_eq merged self) as (s' & Hs & _). rewrite Hs. intros [].
  - rewrite Update_eq, DoUpdate_events, Hfull.
    destruct requested; cbn; intuition discriminate.
  - rewrite DumpSyncDebug_eq. cbv zeta.
    set (a := DumpAsyncIfNeeded _ _ _).
    assert (Ha : executed_update_types (events_of a) = [])
      by apply DumpAsyncIfNeeded_runs_no_update.
    destruct (IsValid (dump_task (update_ (state_of a)))); project_triples.
    + rewrite executed_update_types_app, Ha, RunDumpTask_eq.
      destruct (dump_task (update_ (state_of a))) as [|[] o n|b]; intros [].
    + rewrite Ha. intros [].
  - intros [].
  - unfold bind, get.
    destruct (update_task_ self); [|intros []].
    pose proof (Hp env self eq_refl) as He.
    destruct (DoPeriodicUpdate env self) as [[r s] evs].
    unfold events_of in *; cbn [fst snd app] in *. rewrite He.
    cbn; intuition discriminate.
  - rewrite RunDumpTask_eq.
    destruct (dump_task (update_ self)) as [|[] o n|b]; intros [].
Qed.

(** C9. A call of the public [Update] runs the update body once, with
    the requested type, except that under [kOnlyFull] a requested
    Incremental is coerced to Full; no type-decision step is taken: the
    type does not depend on [last_update] or [full_update_interval], and
    the one-shot [force_next_update_full_] is not consumed.  Hence under
    [kOnlyFull] no operation at all runs the domain update with type
    Incremental. *)
Theorem Update_kOnlyFull_coerces env requested self :
  let config := GetConfig self in
  let r := Update env requested self in
  (exists update_type,
     executed_update_types (events_of r) = [update_type] /\
     (allowed_update_types config = kOnlyFull -> requested = kIncremental ->
      update_type = kFull) /\
     (~ (allowed_update_types config = kOnlyFull /\ requested = kIncremental) ->
      update_type = requested)) /\
  force_next_update_full_ (state_of r) = force_next_update_full_ self /\
  (allowed_update_types config = kOnlyFull ->
   forall op,
     ~ In kIncremental (executed_update_types (events_of (perform op self)))).
Proof.
  intros config r. subst r config. rewrite Update_eq, DoUpdate_events.
  split; [|split].
  - eexists. split; [reflexivity|]. split.
    + intros -> ->. reflexivity.
    + intros Hn.
      destruct (allowed_update_types (GetConfig self)), requested;
        try reflexivity.
      exfalso. apply Hn. split; reflexivity.
  - apply DoUpdate_force_next_update_full.
  - intros Hfull op. apply kOnlyFull_never_incremental. exact Hfull.
Qed.

(** ** How each function moves the recorded instants *)

Lemma same_instants_update_invariant s s' :
  same_instants s s' -> update_invariant s -> update_invariant s'.
Proof. unfold same_instants, update_invariant. intros [-> _] H. exact H. Qed.


Lemma DoUpdate_instants env update_type self :
  let s' := state_of (DoUpdate env update_type self) in
  last_dumped_update_ s' = last_dumped_update_ self /\
  dump_task (update_ s') = dump_task (update_ self) /\
  ((last_update (update_ s') = last_update (update_ self) /\
    last_modifying_update (update_ s') = last_modifying_update (update_ self)) \/
   (update_throws (domain env) = None /\
    last_update (update_ s') = system_now env /\
    (last_modifying_update (update_ s') = system_now env \/
     last_modifying_update (update_ s') = last_modifying_update (update_ self)))).
Proof.
  cbv zeta. rewrite DoUpdate_eq. cbv zeta.
  destruct (update_throws (domain env)); project_triples.
  - destruct (calls_OnCacheModified (domain env)); repeat split; left; split; reflexivity.
  - unfold updated.
    destruct (calls_OnCacheModified (domain env) || cache_modified_ self);
      repeat split; right; (split; [reflexivity|]); (split; [reflexivity|]);
      [left|right]; reflexivity.
Qed.

Lemma DumpAsyncIfNeeded_instants type config self :
  let s' := state_of (DumpAsyncIfNeeded type config self) in
  last_dumped_update_ s' = last_dumped_update_ self /\
  last_update (update_ s') = last_update (update_ self) /\
  last_modifying_update (update_ s') = last_modifying_update (update_ self) /\
  (dump_task (update_ s') = dump_task (update_ self) \/
   (dump_task_live self = false /\
    exists operation_type,
      dump_task (update_ s') =
      TaskRunning operation_type (last_dumped_update_ self)
                  (last_modifying_update (update_ self)))).
Proof.
  cbv zeta. rewrite DumpAsyncIfNeeded_eq.
  destruct (ShouldDump self type (update_ self) config) eqn:Hs; project_triples.
  - repeat split. right. split.
    + destruct (dump_task_live self) eqn:Hl; [|reflexivity].
      pose proof (ShouldDump_live_refused self type config Hl) as Hf.
      congruence.
    + eexists. reflexivity.
  - repeat split. left. reflexivity.
Qed.

Lemma finished_instants outcome new_update_time self :
  let s' := finished outcome new_update_time self in
  last_update (update_ s') = last_update (update_ self) /\
  last_modifying_update (update_ s') = last_modifying_update (update_ self) /\
  IsFinished (dump_task (update_ s')) = true /\
  last_dumped_update_ s' =
    match outcome with
    | Ok true => new_update_time
    | _ => last_dumped_update_ self
    end.
Proof. destruct outcome as [[]|e]; repeat split. Qed.

(** *** [last_modifying_update <= last_update] *)

Lemma DoUpdate_update_invariant env update_type self :
  update_invariant self ->
  last_modifying_update (update_ self) <= system_now env ->
  update_invariant (state_of (DoUpdate env update_type self)).
Proof.
  unfold update_invariant. intros Hi Hn.
  destruct (DoUpdate_instants env update_type self)
    as (_ & _ & [[-> ->] | (_ & -> & [-> | ->])]); lia.
Qed.

Lemma DumpAsyncIfNeeded_update_invariant type config self :
  update_invariant self ->
  update_invariant (state_of (DumpAsyncIfNeeded type config self)).
Proof.
  unfold update_invariant. intros Hi.
  destruct (DumpAsyncIfNeeded_instants type config self) as (_ & -> & -> & _).
  exact Hi.
Qed.

Lemma DoPeriodicUpdate_update_invariant env self :
  update_invariant self ->
  last_modifying_update (update_ self) <= system_now env ->
  update_invariant (state_of (DoPeriodicUpdate env self)).
Proof.
  intros Hi Hn. rewrite DoPeriodicUpdate_eq. cbv zeta. project_triples.
  apply DumpAsyncIfNeeded_update_invariant, DoUpdate_update_invariant; assumption.
Qed.

Lemma RunDumpTask_update_invariant outcome self :
  update_invariant self ->
  update_invariant (state_of (RunDumpTask outcome self)).
Proof.
  unfold update_invariant. intros Hi. rewrite RunDumpTask_eq.
  destruct (dump_task (update_ self)) as [|op o n|b]; project_triples; try exact Hi.
  destruct (finished_instants outcome n self) as (-> & -> & _). exact Hi.
Qed.

Lemma bootstrap_tail_instants enabled was_loaded config self :
  same_instants self
    (tasks_started enabled config (escalated was_loaded config self)).
Proof.
  unfold tasks_started, escalated.
  destruct enabled,
    (was_loaded && is_kOnlyIncremental (allowed_update_types config) &&
     force_full_second_update config); split; reflexivity.
Qed.

Lemma StartPeriodicUpdates_update_invariant flags env self :
  update_invariant self ->
  chronological self (CallStartPeriodicUpdates flags env) ->
  update_invariant (state_of (StartPeriodicUpdates flags env self)).
Proof.
  intros Hi Hc. cbn [chronological] in Hc.
  rewrite StartPeriodicUpdates_eq.
  destruct (is_running_ self); [exact Hi|]. cbv zeta.
  set (self0 := set_cache_invalidator_holder true (set_is_running true self)).
  assert (Hl : update_invariant
                 (state_of (LoadFromDump (latest_dump env) (GetConfig self) self0)) /\
               last_modifying_update
                 (update_ (state_of (LoadFromDump (latest_dump env)
                                       (GetConfig self) self0))) <=
               system_now (first_update env)).
  { rewrite LoadFromDump_state by reflexivity.
    destruct (loaded_update_time self env) as [t|]; split;
      unfold update_invariant; cbn; solve [exact Hi | exact Hc | lia]. }
  destruct Hl as [Hli Hln].
  set (l := LoadFromDump _ _ _) in *.
  pose proof (DoPeriodicUpdate_update_invariant (first_update env) (state_of l)
                Hli Hln) as Hp.
  destruct (runs_first_update self flags env);
    [destruct (result_of (DoPeriodicUpdate (first_update env) (state_of l)));
     [|destruct (tolerates_failure self env)]|];
    project_triples;
    try (eapply same_instants_update_invariant;
         [apply bootstrap_tail_instants|]; assumption).
  exact Hp.
Qed.

(** One operation keeps [last_modifying_update <= last_update], provided
    its wall-clock instants are [chronological]. *)
Lemma step_update_invariant op self :
  update_invariant self ->
  chronological self op ->
  update_invariant (step op self).
Proof.
  intros Hi Hc. unfold step.
  destruct op as [flags env|outcome|merged|requested env|outcome| |env|outcome];
    cbn [perform chronological] in *.
  - apply StartPeriodicUpdates_update_invariant; assumption.
  - rewrite StopPeriodicUpdates_eq.
    destruct (is_running_ self); [|exact Hi]. cbv zeta.
    destruct (dump_task (update_ self)) as [|o' o n|b]; project_triples;
      try exact Hi.
    unfold update_invariant.
    destruct (finished_instants outcome n
                (set_cleanup_task None
                   (set_update_task None (set_is_running false self))))
      as (-> & -> & _).
    exact Hi.
  - destruct (SetConfig_eq merged self) as (s' & -> & Hu & _).
    project_triples. unfold update_invariant. rewrite Hu. exact Hi.
  - rewrite Update_eq. apply DoUpdate_update_invariant; assumption.
  - rewrite DumpSyncDebug_eq. cbv zeta.
    pose proof (DumpAsyncIfNeeded_update_invariant kForced (GetConfig self) self Hi)
      as Ha.
    destruct (IsValid _); project_triples; [|exact Ha].
    apply RunDumpTask_update_invariant. exact Ha.
  - exact Hi.
  - unfold bind, get.
    destruct (update_task_ self); [|exact Hi].
    pose proof (DoPeriodicUpdate_update_invariant env self Hi Hc) as Hp.
    destruct (DoPeriodicUpdate env self) as [[r s] evs].
    destruct r; exact Hp.
  - apply RunDumpTask_update_invariant. exact Hi.
Qed.

(** *** [last_dumped_update <= last_modifying_update] *)










(** ** Invariants over executions *)

Lemma execution_run admissible ops self :
  all_admissible admissible ops self ->
  execution admissible self ops (run ops self).
Proof.
  revert self. induction ops as [|op ops IH]; intros self H; cbn in *.
  - constructor.
  - destruct H as [Ha Hr]. constructor; [exact Ha|apply IH, Hr].
Qed.

Lemma Construct_invariants config enabled :
  update_invariant (Construct config enabled) /\
  dump_invariant (Construct config enabled).
Proof. unfold update_invariant, dump_invariant. cbn. repeat split; lia. Qed.

Lemma execution_update_invariant self ops self' :
  update_invariant self ->
  execution chronological self ops self' ->
  update_invariant self'.
Proof.
  intros Hi He. induction He as [self|self op ops self' Ha He IH].
  - exact Hi.
  - apply IH, step_update_invariant; assumption.
Qed.


(** C8 (as amended). [last_modifying_update <= last_update] holds after
    every operation of an execution whose wall-clock instants are
    chronological (no update's [system_now] precedes
    [last_modifying_update], nor the loaded dump's instant for the first
    update after a dump load).  In every such state: an update that
    returns sets [last_update] to [system_now], and
    [last_modifying_update] to the same instant exactly when
    [cache_modified_] was exchanged from true; an update that throws
    changes neither; a dump load sets both to the dump's instant. *)
Theorem update_invariant_preserved self ops self' :
  update_invariant self ->
  execution chronological self ops self' ->
  update_invariant self' /\
  (forall env update_type,
     let s := state_of (DoUpdate env update_type self') in
     match update_throws (domain env) with
     | None =>
         last_update (update_ s) = system_now env /\
         last_modifying_update (update_ s) =
           (if calls_OnCacheModified (domain env) || cache_modified_ self'
            then system_now env
            else last_modifying_update (update_ self'))
     | Some _ =>
         last_update (update_ s) = last_update (update_ self') /\
         last_modifying_update (update_ s) = last_modifying_update (update_ self')
     end) /\
  (forall update_time config,
     dumps_enabled config = true ->
     let s := state_of (LoadFromDump (Some update_time) config self') in
     last_update (update_ s) = update_time /\
     last_modifying_update (update_ s) = update_time).
Proof.
  intros Hi He. split; [eapply execution_update_invariant; eassumption|].
  split.
  - intros env update_type. cbv zeta. rewrite DoUpdate_eq. cbv zeta.
    destruct (update_throws (domain env)); project_triples.
    + destruct (calls_OnCacheModified (domain env)); split; reflexivity.
    + split; reflexivity.
  - intros update_time config Hd. cbv zeta. rewrite LoadFromDump_eq, Hd.
    split; reflexivity.
Qed.

Lemma update_invariant_preserved_witness :
  update_invariant (run chronological_scenario (Construct scenario_config true)).
Proof.
  refine (proj1 (update_invariant_preserved (Construct scenario_config true)
                   chronological_scenario _ _ _)).
  - apply Construct_invariants.
  - apply execution_run. cbn. repeat split; lia.
Defined.

(** C8 (as stated) fails: when the wall clock steps back from 20 to 10
    between a modifying update and one that modifies nothing,
    [last_update] becomes 10 while [last_modifying_update] stays 20. *)
Lemma update_invariant_fails_when_clock_steps_back :
  let self := run (clock_steps_back false) (Construct scenario_config true) in
  last_update (update_ self) = 10 /\
  last_modifying_update (update_ self) = 20 /\
  ~ update_invariant_always.
Proof.
  split; [reflexivity|]. split; [reflexivity|].
  intros H.
  specialize (H scenario_config true (clock_steps_back false)).
  unfold update_invariant in H. vm_compute in H. apply H. reflexivity.
Qed.




(** * Further properties of the code *)

(** ** Frames *)

Lemma same_lifecycle_refl self : same_lifecycle self self.
Proof. repeat split. Qed.

Lemma same_lifecycle_trans s1 s2 s3 :
  same_lifecycle s1 s2 -> same_lifecycle s2 s3 -> same_lifecycle s1 s3.
Proof.
  unfold same_lifecycle. intros H12 H23.
  decompose [and] H12; decompose [and] H23.
  repeat split; etransitivity; eassumption.
Qed.

Lemma DoUpdate_lifecycle env update_type self :
  same_lifecycle self (state_of (DoUpdate env update_type self)).
Proof.
  rewrite DoUpdate_eq. cbv zeta.
  destruct (update_throws (domain env)); project_triples.
  - destruct (calls_OnCacheModified (domain env)); repeat split.
  - repeat split.
Qed.

Lemma DumpAsyncIfNeeded_lifecycle type config self :
  same_lifecycle self (state_of (DumpAsyncIfNeeded type config self)).
Proof.
  rewrite DumpAsyncIfNeeded_eq.
  destruct (ShouldDump self type (update_ self) config); repeat split.
Qed.

Lemma DoPeriodicUpdate_lifecycle env self :
  same_lifecycle self (state_of (DoPeriodicUpdate env self)).
Proof.
  rewrite DoPeriodicUpdate_eq. cbv zeta. project_triples.
  eapply same_lifecycle_trans; [|apply DumpAsyncIfNeeded_lifecycle].
  eapply same_lifecycle_trans; [|apply DoUpdate_lifecycle].
  repeat split.
Qed.

Lemma RunDumpTask_lifecycle outcome self :
  same_lifecycle self (state_of (RunDumpTask outcome self)).
Proof.
  rewrite RunDumpTask_eq.
  destruct (dump_task (update_ self)) as [|op o n|b]; project_triples;
    try apply same_lifecycle_refl.
  destruct outcome as [[]|e]; repeat split.
Qed.

Lemma DumpSyncDebug_lifecycle outcome self :
  same_lifecycle self (state_of (DumpSyncDebug outcome self)).
Proof.
  rewrite DumpSyncDebug_eq. cbv zeta.
  pose proof (DumpAsyncIfNeeded_lifecycle kForced (GetConfig self) self) as Ha.
  destruct (IsValid _); project_triples; [|exact Ha].
  eapply same_lifecycle_trans; [exact Ha|apply RunDumpTask_lifecycle].
Qed.

Lemma LoadFromDump_lifecycle latest config self :
  same_lifecycle self (state_of (LoadFromDump latest config self)).
Proof.
  rewrite LoadFromDump_eq.
  destruct (dumps_enabled config); [destruct latest|]; repeat split.
Qed.

Lemma set_is_running_same self b :
  is_running_ self = b -> set_is_running b self = self.
Proof. destruct self. cbn. intros <-. reflexivity. Qed.


Lemma DoPeriodicUpdate_force_consumed env self :
  force_next_update_full_ (state_of (DoPeriodicUpdate env self)) = false.
Proof.
  rewrite DoPeriodicUpdate_eq. cbv zeta. project_triples.
  rewrite DumpAsyncIfNeeded_force_next_update_full, DoUpdate_force_next_update_full.
  reflexivity.
Qed.

(** ** Starting and stopping *)



(** X2. [StartPeriodicUpdates] on a running cache does nothing at all:
    after a call that returned normally, any further call leaves the
    object as it is and makes no call to the domain, the dump facade or
    the periodic tasks. *)
Theorem StartPeriodicUpdates_twice flags1 env1 flags2 env2 self :
  is_running_ self = false ->
  result_of (StartPeriodicUpdates flags1 env1 self) = Ok tt ->
  StartPeriodicUpdates flags2 env2
    (state_of (StartPeriodicUpdates flags1 env1 self)) =
  (Ok tt, state_of (StartPeriodicUpdates flags1 env1 self), []).
Proof.
  intros Hrun Hok.
  assert (Hr : is_running_ (state_of (StartPeriodicUpdates flags1 env1 self)) = true).
  { pose proof (StartPeriodicUpdates_eq flags1 env1 self) as Heq.
    rewrite Hrun in Heq. cbv zeta in Heq.
    set (self0 := set_cache_invalidator_holder true (set_is_running true self)) in *.
    pose proof (LoadFromDump_lifecycle (latest_dump env1) (GetConfig self) self0) as Hl.
    set (l := LoadFromDump _ _ _) in *.
    pose proof (DoPeriodicUpdate_lifecycle (first_update env1) (state_of l)) as Hp.
    set (p := DoPeriodicUpdate _ _) in *.
    assert (Hgo : forall s, same_lifecycle self0 s ->
              is_running_ (tasks_started (periodic_update_enabled_ self)
                             (GetConfig self)
                             (escalated (dump_loaded self env1) (GetConfig self) s))
              = true).
    { intros s Hs. rewrite (proj1 (bootstrap_tail_fields _ _ _ _)).
      assert (H0 : is_running_ self0 = true) by reflexivity.
      unfold same_lifecycle in Hs. decompose [and] Hs. congruence. }
    rewrite Heq in *.
    destruct (runs_first_update self flags1 env1);
      [destruct (result_of p);
       [|destruct (tolerates_failure self env1)]|];
      project_triples; try (apply Hgo; try assumption;
                            eapply same_lifecycle_trans; eassumption).
    rewrite result_of_triple in Hok. discriminate. }
  rewrite StartPeriodicUpdates_eq, Hr.
  rewrite set_is_running_same by exact Hr. reflexivity.
Qed.

Lemma StartPeriodicUpdates_twice_witness :
  StartPeriodicUpdates [kNoFirstUpdate] warm_start_upstream_down running_cache =
  (Ok tt, running_cache, []).
Proof.
  exact (StartPeriodicUpdates_twice []
           (mkStartEnv None (update_at 10 true None))
           [kNoFirstUpdate] warm_start_upstream_down
           (Construct scenario_config true) eq_refl eq_refl).
Defined.

(** X3. [StopPeriodicUpdates] never throws and leaves the cache not
    running.  On a running cache it stops both periodic tasks and returns
    only once no dump task is in flight; the recorded update instants are
    untouched.  On a cache that is not running it does nothing, so a dump
    task in flight then stays in flight; in particular a second call in a
    row changes nothing and makes no call. *)
Theorem StopPeriodicUpdates_stops outcome self :
  let r := StopPeriodicUpdates outcome self in
  result_of r = Ok tt /\
  is_running_ (state_of r) = false /\
  last_update (update_ (state_of r)) = last_update (update_ self) /\
  last_modifying_update (update_ (state_of r)) =
    last_modifying_update (update_ self) /\
  (is_running_ self = true ->
   update_task_ (state_of r) = None /\
   cleanup_task_ (state_of r) = None /\
   dump_task_live (state_of r) = false) /\
  (is_running_ self = false -> r = (Ok tt, self, [])) /\
  (forall outcome',
     StopPeriodicUpdates outcome' (state_of r) = (Ok tt, state_of r, [])).
Proof.
  cbv zeta.
  assert (Hnot : forall o s, is_running_ s = false ->
            StopPeriodicUpdates o s = (Ok tt, s, [])).
  { intros o s Hs. rewrite StopPeriodicUpdates_eq, Hs.
    rewrite set_is_running_same by exact Hs. reflexivity. }
  assert (Hr : is_running_ (state_of (StopPeriodicUpdates outcome self)) = false).
  { rewrite StopPeriodicUpdates_eq.
    destruct (is_running_ self); [|reflexivity]. cbv zeta.
    destruct (dump_task (update_ self)) as [|op o n|b]; project_triples;
      try reflexivity.
    destruct outcome as [[]|e]; reflexivity. }
  split; [|split; [exact Hr|]].
  { rewrite StopPeriodicUpdates_eq.
    destruct (is_running_ self); [|reflexivity]. cbv zeta.
    destruct (dump_task (update_ self)); reflexivity. }
  split; [|split; [|split; [|split]]].
  - rewrite StopPeriodicUpdates_eq.
    destruct (is_running_ self); [|reflexivity]. cbv zeta.
    destruct (dump_task (update_ self)) as [|op o n|b]; project_triples;
      try reflexivity.
    destruct outcome as [[]|e]; reflexivity.
  - rewrite StopPeriodicUpdates_eq.
    destruct (is_running_ self); [|reflexivity]. cbv zeta.
    destruct (dump_task (update_ self)) as [|op o n|b]; project_triples;
      try reflexivity.
    destruct outcome as [[]|e]; reflexivity.
  - intros Hrun. rewrite StopPeriodicUpdates_eq, Hrun. cbv zeta.
    unfold dump_task_live.
    destruct (dump_task (update_ self)) as [|op o n|b] eqn:Ht; project_triples;
      cbn; rewrite ?Ht; repeat split.
    all: destruct outcome as [[]|e]; reflexivity.
  - intros Hrun. apply Hnot, Hrun.
  - intros outcome'. apply Hnot, Hr.
Qed.

Lemma runs_first_update_without_periodic self flags env :
  periodic_update_enabled_ self = false ->
  runs_first_update self flags env = runs_first_update self [] env.
Proof.
  intros H. unfold runs_first_update. rewrite H.
  rewrite !orb_true_r. reflexivity.
Qed.

(** X4. When periodic updates are disabled the flags passed to
    [StartPeriodicUpdates] make no difference: [kNoFirstUpdate] is
    ignored, and the call behaves in every respect like a call without
    flags. *)
Theorem StartPeriodicUpdates_ignores_flags_without_periodic flags env self :
  periodic_update_enabled_ self = false ->
  StartPeriodicUpdates flags env self = StartPeriodicUpdates [] env self.
Proof.
  intros H. rewrite !StartPeriodicUpdates_eq.
  rewrite (runs_first_update_without_periodic self flags env H). reflexivity.
Qed.

Lemma StartPeriodicUpdates_ignores_flags_without_periodic_witness :
  first_update_was_run
    (events_of (StartPeriodicUpdates [kNoFirstUpdate]
                  (mkStartEnv None (update_at 10 true None))
                  (Construct scenario_config false))) = true.
Proof.
  rewrite (StartPeriodicUpdates_ignores_flags_without_periodic [kNoFirstUpdate]
             (mkStartEnv None (update_at 10 true None))
             (Construct scenario_config false) eq_refl).
  reflexivity.
Defined.

(** ** Update types across ticks *)

(** The shape of the object a bootstrap hands over when it returns
    normally. *)
Lemma StartPeriodicUpdates_success_state flags env self :
  is_running_ self = false ->
  result_of (StartPeriodicUpdates flags env self) = Ok tt ->
  exists s,
    same_lifecycle
      (set_cache_invalidator_holder true (set_is_running true self)) s /\
    state_of (StartPeriodicUpdates flags env self) =
    tasks_started (periodic_update_enabled_ self) (GetConfig self)
      (escalated (dump_loaded self env) (GetConfig self) s).
Proof.
  intros Hrun. rewrite StartPeriodicUpdates_eq, Hrun. cbv zeta.
  set (self0 := set_cache_invalidator_holder true (set_is_running true self)).
  pose proof (LoadFromDump_lifecycle (latest_dump env) (GetConfig self) self0) as Hl.
  set (l := LoadFromDump _ _ _) in *.
  pose proof (DoPeriodicUpdate_lifecycle (first_update env) (state_of l)) as Hp.
  set (p := DoPeriodicUpdate _ _) in *.
  pose proof (same_lifecycle_trans _ _ _ Hl Hp) as Hlp.
  destruct (runs_first_update self flags env);
    [destruct (result_of p); [|destruct (tolerates_failure self env)]|];
    project_triples; intros Hok; try discriminate;
    eexists; (split; [|reflexivity]); assumption.
Qed.

Lemma DoPeriodicUpdate_config env self :
  config_ (state_of (DoPeriodicUpdate env self)) = config_ self.
Proof. apply (DoPeriodicUpdate_lifecycle env self). Qed.

(** X5. After a bootstrap that loaded a dump under [kOnlyIncremental]
    with [force_full_second_update] set, the one-shot
    [force_next_update_full_] is armed and the update task is started
    with the [kNow] flag; the next periodic tick then runs a Full update,
    and the tick after it is Incremental again (as long as the cache is
    not empty then). *)
Theorem forced_full_second_update flags env env1 env2 self :
  is_running_ self = false ->
  dump_loaded self env = true ->
  allowed_update_types (GetConfig self) = kOnlyIncremental ->
  force_full_second_update (GetConfig self) = true ->
  result_of (StartPeriodicUpdates flags env self) = Ok tt ->
  let s1 := state_of (StartPeriodicUpdates flags env self) in
  let t1 := DoPeriodicUpdate env1 s1 in
  let t2 := DoPeriodicUpdate env2 (state_of t1) in
  force_next_update_full_ s1 = true /\
  kNow (periodic_task_flags_ s1) = true /\
  (periodic_update_enabled_ self = true ->
   exists settings,
     update_task_ s1 = Some settings /\ kNow (task_flags settings) = true) /\
  executed_update_types (events_of t1) = [kFull] /\
  (last_update (update_ (state_of t1)) <> 0 ->
   executed_update_types (events_of t2) = [kIncremental]).
Proof.
  intros Hrun Hd Ha Hf Hok s1 t1 t2.
  destruct (StartPeriodicUpdates_success_state flags env self Hrun Hok)
    as (s & Hs & Heq).
  fold s1 in Heq. subst t2 t1.
  assert (Hesc : escalated (dump_loaded self env) (GetConfig self) s =
                 set_periodic_task_flags
                   (mkPeriodicTaskFlags (kChaotic (periodic_task_flags_ s))
                      (kCritical (periodic_task_flags_ s)) true)
                   (set_force_next_update_full true s)).
  { unfold escalated. rewrite Hd, Ha, Hf. reflexivity. }
  rewrite Hesc in Heq.
  assert (Hc : config_ s1 = config_ self).
  { rewrite Heq. unfold same_lifecycle in Hs. decompose [and] Hs.
    unfold tasks_started. destruct (periodic_update_enabled_ self); cbn; assumption. }
  assert (Hforce : force_next_update_full_ s1 = true).
  { rewrite Heq. unfold tasks_started.
    destruct (periodic_update_enabled_ self); reflexivity. }
  split; [exact Hforce|]. split; [|split; [|split]].
  - rewrite Heq. unfold tasks_started.
    destruct (periodic_update_enabled_ self); reflexivity.
  - intros He. rewrite Heq, He. eexists. split; reflexivity.
  - rewrite DoPeriodicUpdate_executed, Hforce. reflexivity.
  - intros Hlu. apply Z.eqb_neq in Hlu.
    rewrite DoPeriodicUpdate_executed, DoPeriodicUpdate_force_consumed, Hlu.
    unfold periodic_update_type, GetConfig.
    rewrite DoPeriodicUpdate_config, Hc.
    unfold GetConfig in Ha. rewrite Ha. reflexivity.
Qed.

Lemma forced_full_second_update_witness :
  let s1 := state_of (StartPeriodicUpdates []
                        (mkStartEnv (Some 5) (update_at 10 false None))
                        (Construct incremental_config true)) in
  let t1 := DoPeriodicUpdate (update_at 20 true None) s1 in
  executed_update_types (events_of t1) = [kFull] /\
  executed_update_types
    (events_of (DoPeriodicUpdate (update_at 30 true None) (state_of t1))) =
  [kIncremental].
Proof.
  destruct (forced_full_second_update []
              (mkStartEnv (Some 5) (update_at 10 false None))
              (update_at 20 true None) (update_at 30 true None)
              (Construct incremental_config true)
              eq_refl eq_refl eq_refl eq_refl eq_refl)
    as (_ & _ & _ & H1 & H2).
  split; [exact H1|]. apply H2. vm_compute. discriminate.
Defined.

(** X6. A periodic tick whose update throws still consumes the one-shot
    [force_next_update_full_]: the update ran as Full, the recorded
    instants are unchanged, and under [kOnlyIncremental] the next tick of
    a non-empty cache is Incremental, so the forced full update is not
    retried. *)
Theorem failed_tick_consumes_forced_full env env' self e :
  force_next_update_full_ self = true ->
  update_throws (domain env) = Some e ->
  let t := DoPeriodicUpdate env self in
  executed_update_types (events_of t) = [kFull] /\
  result_of t = Throw e /\
  force_next_update_full_ (state_of t) = false /\
  last_update (update_ (state_of t)) = last_update (update_ self) /\
  (allowed_update_types (GetConfig self) = kOnlyIncremental ->
   last_update (update_ self) <> 0 ->
   executed_update_types (events_of (DoPeriodicUpdate env' (state_of t))) =
   [kIncremental]).
Proof.
  intros Hf He t. subst t.
  destruct (DoPeriodicUpdate_failure env self e He) as [Hres Hun].
  unfold unchanged_update_state in Hun. decompose [and] Hun. clear Hun.
  split; [rewrite DoPeriodicUpdate_executed, Hf; reflexivity|].
  split; [exact Hres|]. split; [apply DoPeriodicUpdate_force_consumed|].
  split; [assumption|].
  intros Ha Hlu. apply Z.eqb_neq in Hlu.
  rewrite DoPeriodicUpdate_executed, DoPeriodicUpdate_force_consumed.
  match goal with H : last_update _ = last_update _ |- _ => rewrite H end.
  rewrite Hlu. unfold periodic_update_type, GetConfig in *.
  match goal with H : config_ _ = config_ _ |- _ => rewrite H end.
  rewrite Ha. reflexivity.
Qed.

Lemma failed_tick_consumes_forced_full_witness :
  let armed := state_of (StartPeriodicUpdates []
                           (mkStartEnv (Some 5) (update_at 10 false None))
                           (Construct incremental_config true)) in
  let t := DoPeriodicUpdate (update_at 20 false (Some "upstream down"%string))
             armed in
  executed_update_types (events_of t) = [kFull] /\
  executed_update_types
    (events_of (DoPeriodicUpdate (update_at 30 true None) (state_of t))) =
  [kIncremental].
Proof.
  destruct (failed_tick_consumes_forced_full
              (update_at 20 false (Some "upstream down"%string))
              (update_at 30 true None)
              (state_of (StartPeriodicUpdates []
                           (mkStartEnv (Some 5) (update_at 10 false None))
                           (Construct incremental_config true)))
              "upstream down"%string eq_refl eq_refl)
    as (H1 & _ & _ & _ & H2).
  split; [exact H1|]. apply H2; [reflexivity|vm_compute; discriminate].
Defined.

Lemma DumpAsyncIfNeeded_cache_modified type config self :
  cache_modified_ (state_of (DumpAsyncIfNeeded type config self)) =
  cache_modified_ self.
Proof.
  rewrite DumpAsyncIfNeeded_eq.
  destruct (ShouldDump self type (update_ self) config); reflexivity.
Qed.

(** What a tick whose update returns records, in terms of the type it
    ran with. *)
Lemma DoPeriodicUpdate_success_state env self :
  update_throws (domain env) = None ->
  let update_type :=
    periodic_update_type
      (force_next_update_full_ self || (last_update (update_ self) =? 0))
      (GetConfig self) (update_ self) (steady_now_tick env) in
  let s' := state_of (DoPeriodicUpdate env self) in
  last_update (update_ s') = system_now env /\
  last_modifying_update (update_ s') =
    (if calls_OnCacheModified (domain env) || cache_modified_ self
     then system_now env else last_modifying_update (update_ self)) /\
  last_full_update (update_ s') =
    (if UpdateType_eqb update_type kFull then steady_now env
     else last_full_update (update_ self)) /\
  cache_modified_ s' = false.
Proof.
  intros He. cbv zeta. rewrite DoPeriodicUpdate_eq. cbv zeta. project_triples.
  set (t := periodic_update_type _ _ _ _).
  set (d := state_of (DoUpdate env t (set_force_next_update_full false self))).
  pose proof (DumpAsyncIfNeeded_unchanged kHonorDumpInterval (GetConfig self) d) as Hu.
  unfold unchanged_update_state in Hu. decompose [and] Hu. clear Hu.
  rewrite DumpAsyncIfNeeded_cache_modified.
  repeat match goal with H : _ (update_ (state_of _)) = _ |- _ => rewrite H; clear H end.
  subst d. rewrite DoUpdate_eq, He. cbv zeta. project_triples.
  repeat split.
Qed.



(** X8. A modification announced by an update that then throws is not
    lost: [cache_modified_] stays raised across the failed tick, which
    leaves [last_modifying_update] alone, and the next tick that returns
    records its own instant as [last_modifying_update] even if it calls
    [OnCacheModified] not at all. *)
Theorem modification_survives_failed_tick env1 env2 self e :
  calls_OnCacheModified (domain env1) = true ->
  update_throws (domain env1) = Some e ->
  update_throws (domain env2) = None ->
  let s1 := state_of (DoPeriodicUpdate env1 self) in
  let s2 := state_of (DoPeriodicUpdate env2 s1) in
  cache_modified_ s1 = true /\
  last_modifying_update (update_ s1) = last_modifying_update (update_ self) /\
  last_modifying_update (update_ s2) = system_now env2 /\
  cache_modified_ s2 = false.
Proof.
  intros Hc He1 He2 s1 s2. subst s2 s1.
  assert (Hm : cache_modified_ (state_of (DoPeriodicUpdate env1 self)) = true).
  { rewrite DoPeriodicUpdate_eq. cbv zeta. project_triples.
    rewrite DumpAsyncIfNeeded_cache_modified, DoUpdate_eq, He1, Hc. reflexivity. }
  destruct (DoPeriodicUpdate_failure env1 self e He1) as [_ Hun].
  unfold unchanged_update_state in Hun. decompose [and] Hun. clear Hun.
  destruct (DoPeriodicUpdate_success_state env2
              (state_of (DoPeriodicUpdate env1 self)) He2) as (_ & Hlm & _ & Hcm).
  rewrite Hm, orb_true_r in Hlm.
  repeat split; assumption.
Qed.

Lemma modification_survives_failed_tick_witness :
  let s1 := state_of (DoPeriodicUpdate
                        (update_at 20 true (Some "upstream down"%string))
                        running_cache) in
  last_modifying_update (update_ s1) = 10 /\
  last_modifying_update
    (update_ (state_of (DoPeriodicUpdate (update_at 30 false None) s1))) = 30.
Proof.
  destruct (modification_survives_failed_tick
              (update_at 20 true (Some "upstream down"%string))
              (update_at 30 false None) running_cache "upstream down"%string
              eq_refl eq_refl eq_refl) as (_ & H1 & H2 & _).
  split; [exact H1|exact H2].
Defined.

(** X9. A freshly constructed cache with dumps enabled whose first update
    returns without calling [OnCacheModified] gets a [kBumpTime] scheduled
    from the zero instant to the zero instant, although no dump was ever
    written: [last_modifying_update] and [last_dumped_update] are both
    still zero, and the task asks the facade to rename the dump of
    instant 0. *)
Theorem unmodified_first_update_bumps config enabled env outcome :
  dumps_enabled config = true ->
  update_throws (domain env) = None ->
  calls_OnCacheModified (domain env) = false ->
  system_now env <> 0 ->
  min_dump_interval config <= system_now env ->
  let t := DoPeriodicUpdate env (Construct config enabled) in
  events_of t =
    [EvUpdate kFull 0 (system_now env);
     EvDumpAsyncIfNeeded kHonorDumpInterval;
     EvDumpAsync kBumpTime 0 0] /\
  last_modifying_update (update_ (state_of t)) = 0 /\
  events_of (RunDumpTask outcome (state_of t)) = [EvBumpDumpTime 0 0].
Proof.
  intros Hd He Hc Hnow Hmin t. subst t.
  apply Z.eqb_neq in Hnow.
  assert (Hgt : (0 >? system_now env - min_dump_interval config) = false).
  { destruct (Z.gtb_spec 0 (system_now env - min_dump_interval config));
      [lia|reflexivity]. }
  rewrite DoPeriodicUpdate_eq. cbv zeta. project_triples.
  rewrite DoUpdate_eq, He. cbv zeta. project_triples.
  rewrite DumpAsyncIfNeeded_eq.
  unfold ShouldDump, updated, dump_operation, GetLastDumpedUpdate, GetConfig.
  cbn. rewrite Hc, Hd, Hnow. cbn. rewrite Hgt. cbn.
  repeat split.
  destruct outcome as [[]|ex]; reflexivity.
Qed.

Lemma unmodified_first_update_bumps_witness :
  scheduled_dumps
    (events_of (DoPeriodicUpdate (update_at 10 false None)
                  (Construct scenario_config true))) = [kBumpTime].
Proof.
  destruct (unmodified_first_update_bumps scenario_config true
              (update_at 10 false None) (Ok false)
              eq_refl eq_refl eq_refl ltac:(discriminate) ltac:(discriminate))
    as (H & _).
  rewrite H. reflexivity.
Defined.

(** ** One dump at a time *)

Lemma one_dump_at_a_time_idle {A} (a : A) self self' :
  dump_task (update_ self') = dump_task (update_ self) ->
  one_dump_at_a_time self (Ok a, self', []).
Proof.
  intros H. split; [cbn; lia|].
  intros op o n Ht. project_triples. split; [reflexivity|].
  left. congruence.
Qed.

Lemma DumpAsyncIfNeeded_one_dump type config self :
  one_dump_at_a_time self (DumpAsyncIfNeeded type config self).
Proof.
  split.
  - rewrite DumpAsyncIfNeeded_scheduled_dumps.
    destruct (ShouldDump _ _ _ _); cbn; lia.
  - intros op o n Ht.
    assert (Hl : dump_task_live self = true)
      by (unfold dump_task_live; rewrite Ht; reflexivity).
    rewrite DumpAsyncIfNeeded_scheduled_dumps, DumpAsyncIfNeeded_eq.
    rewrite (ShouldDump_live_refused self type config Hl). project_triples.
    split; [reflexivity|left; exact Ht].
Qed.

Lemma DoPeriodicUpdate_one_dump env self :
  one_dump_at_a_time self (DoPeriodicUpdate env self).
Proof.
  rewrite DoPeriodicUpdate_eq. cbv zeta.
  set (t := periodic_update_type _ _ _ _).
  set (d := DoUpdate env t (set_force_next_update_full false self)).
  destruct (DoUpdate_instants env t (set_force_next_update_full false self))
    as (_ & Hd & _). fold d in Hd. cbn [update_ set_force_next_update_full] in Hd.
  destruct (DumpAsyncIfNeeded_one_dump kHonorDumpInterval (GetConfig self)
              (state_of d)) as [Hlen Hlive].
  assert (He : scheduled_dumps (events_of d) = [])
    by (subst d; rewrite DoUpdate_events; reflexivity).
  unfold one_dump_at_a_time. project_triples.
  rewrite scheduled_dumps_app, He. cbn [app].
  split; [exact Hlen|].
  intros op o n Ht. apply Hlive. congruence.
Qed.

Lemma RunDumpTask_one_dump outcome self :
  one_dump_at_a_time self (RunDumpTask outcome self).
Proof.
  rewrite RunDumpTask_eq.
  destruct (dump_task (update_ self)) as [|op o n|b] eqn:Ht;
    try (apply one_dump_at_a_time_idle; reflexivity).
  split; [destruct op; cbn; lia|].
  intros op' o' n' _. project_triples.
  split; [destruct op; reflexivity|].
  right. destruct outcome as [[]|e]; reflexivity.
Qed.

(** X10. No operation schedules more than one dump, and none schedules a
    dump while a dump task is in flight: after the operation that task is
    either still the same running task or finished, never replaced. *)
Theorem dump_tasks_never_overlap op self :
  one_dump_at_a_time self (perform op self).
Proof.
  destruct op as [flags env|outcome|merged|requested env|outcome| |env|outcome];
    cbn [perform].
  - rewrite StartPeriodicUpdates_eq.
    destruct (is_running_ self);
      [apply one_dump_at_a_time_idle; reflexivity|].
    cbv zeta.
    set (self0 := set_cache_invalidator_holder true (set_is_running true self)).
    assert (Hl : scheduled_dumps
                   (events_of (LoadFromDump (latest_dump env) (GetConfig self) self0))
                 = [] /\
                 dump_task (update_ (state_of
                   (LoadFromDump (latest_dump env) (GetConfig self) self0))) =
                 dump_task (update_ self)).
    { rewrite LoadFromDump_eq.
      destruct (dumps_enabled (GetConfig self)); [destruct (latest_dump env)|];
        split; reflexivity. }
    destruct Hl as [Hle Hlt].
    set (l := LoadFromDump _ _ _) in *.
    destruct (DoPeriodicUpdate_one_dump (first_update env) (state_of l))
      as [Hlen Hlive].
    set (p := DoPeriodicUpdate _ _) in *.
    assert (Hgo : forall s evs,
              (List.length (scheduled_dumps evs) <= 1)%nat ->
              (forall op o n, dump_task (update_ self) = TaskRunning op o n ->
                 scheduled_dumps evs = [] /\
                 (dump_task (update_ s) = TaskRunning op o n \/
                  IsFinished (dump_task (update_ s)) = true)) ->
              one_dump_at_a_time self
                (Ok tt,
                 tasks_started (periodic_update_enabled_ self) (GetConfig self)
                   (escalated (dump_loaded self env) (GetConfig self) s),
                 events_of l ++ evs ++
                 start_events (periodic_update_enabled_ self) (GetConfig self)
                   (escalated (dump_loaded self env) (GetConfig self) s))).
    { intros s evs H1 H2. unfold one_dump_at_a_time. project_triples.
      rewrite !scheduled_dumps_app, Hle.
      assert (Hs : scheduled_dumps
                     (start_events (periodic_update_enabled_ self) (GetConfig self)
                        (escalated (dump_loaded self env) (GetConfig self) s)) = [])
        by (destruct (periodic_update_enabled_ self); reflexivity).
      rewrite Hs, app_nil_r. cbn [app].
      rewrite (proj2 (bootstrap_tail_fields _ _ _ _)).
      split; [exact H1|exact H2]. }
    assert (Hp : forall op o n, dump_task (update_ self) = TaskRunning op o n ->
              scheduled_dumps (events_of p) = [] /\
              (dump_task (update_ (state_of p)) = TaskRunning op o n \/
               IsFinished (dump_task (update_ (state_of p))) = true)).
    { intros op o n Ht. apply Hlive. congruence. }
    destruct (runs_first_update self flags env);
      [destruct (result_of p); [|destruct (tolerates_failure self env)]|].
    + apply Hgo; assumption.
    + apply Hgo; assumption.
    + unfold one_dump_at_a_time. project_triples.
      rewrite scheduled_dumps_app, Hle. cbn [app].
      split; [exact Hlen|exact Hp].
    + apply Hgo; [cbn; lia|].
      intros op o n Ht. split; [reflexivity|left; congruence].
  - rewrite StopPeriodicUpdates_eq.
    destruct (is_running_ self);
      [|apply one_dump_at_a_time_idle; reflexivity].
    cbv zeta.
    destruct (dump_task (update_ self)) as [|op o n|b] eqn:Ht;
      try (split; [cbn; lia|]; intros op' o' n' Ht'; rewrite Ht in Ht';
           discriminate).
    split; [destruct op; cbn; lia|].
    intros op' o' n' _. project_triples.
    split; [destruct op; reflexivity|].
    right. destruct outcome as [[]|e]; reflexivity.
  - destruct (SetConfig_eq merged self) as (s' & -> & Hu & _).
    apply one_dump_at_a_time_idle. rewrite Hu. reflexivity.
  - rewrite Update_eq.
    match goal with |- one_dump_at_a_time _ (DoUpdate _ ?u _) => set (t := u) end.
    destruct (DoUpdate_instants env t self) as (_ & Hd & _).
    unfold one_dump_at_a_time. rewrite DoUpdate_events. cbn [scheduled_dumps List.length].
    split; [lia|].
    intros op o n Ht. split; [reflexivity|left; congruence].
  - rewrite DumpSyncDebug_eq. cbv zeta.
    destruct (DumpAsyncIfNeeded_one_dump kForced (GetConfig self) self)
      as [Hlen Hlive].
    set (a := DumpAsyncIfNeeded _ _ _) in *.
    destruct (RunDumpTask_one_dump outcome (state_of a)) as [_ Hrun].
    assert (Hw : scheduled_dumps (events_of (RunDumpTask outcome (state_of a))) = []).
    { rewrite RunDumpTask_eq.
      destruct (dump_task (update_ (state_of a))) as [|[] o n|b]; reflexivity. }
    destruct (IsValid (dump_task (update_ (state_of a)))) eqn:Hv;
      unfold one_dump_at_a_time; project_triples.
    + rewrite scheduled_dumps_app. cbn [scheduled_dumps]. rewrite Hw, app_nil_r.
      split; [exact Hlen|].
      intros op o n Ht. destruct (Hlive op o n Ht) as [Hs [Hsame | Hfin]].
      * split; [exact Hs|]. apply (Hrun op o n Hsame).
      * split; [exact Hs|]. right.
        rewrite RunDumpTask_eq.
        destruct (dump_task (update_ (state_of a))) eqn:E; try discriminate.
        project_triples. rewrite E. reflexivity.
    + split; [exact Hlen|exact Hlive].
  - apply one_dump_at_a_time_idle. reflexivity.
  - unfold bind, get.
    destruct (update_task_ self);
      [|apply one_dump_at_a_time_idle; reflexivity].
    pose proof (DoPeriodicUpdate_one_dump env self) as Hp.
    destruct (DoPeriodicUpdate env self) as [[r s] evs].
    destruct r; exact Hp.
  - apply RunDumpTask_one_dump.
Qed.

(** ** Synchronous and disabled dumps *)




Lemma DoPeriodicUpdate_dumps_disabled env self :
  dumps_enabled (GetConfig self) = false ->
  existsb is_dump_request (events_of (DoPeriodicUpdate env self)) = false /\
  last_dumped_update_ (state_of (DoPeriodicUpdate env self)) =
    last_dumped_update_ self.
Proof.
  intros Hd. rewrite DoPeriodicUpdate_eq. cbv zeta. project_triples.
  set (d := DoUpdate _ _ _).
  rewrite DumpAsyncIfNeeded_eq.
  assert (Hs : ShouldDump (state_of d) kHonorDumpInterval (update_ (state_of d))
                 (GetConfig self) = false)
    by (unfold ShouldDump; rewrite Hd; reflexivity).
  rewrite Hs. project_triples.
  split.
  - subst d. rewrite DoUpdate_events. reflexivity.
  - subst d.
    destruct (DoUpdate_instants env
                (periodic_update_type
                   (force_next_update_full_ self || (last_update (update_ self) =? 0))
                   (GetConfig self) (update_ self) (steady_now_tick env))
                (set_force_next_update_full false self)) as (H & _).
    exact H.
Qed.

(** X13. While dumps are disabled in the current configuration no
    operation looks for a dump on disk or schedules a dump task, and
    unless a dump task from earlier is still in flight
    [last_dumped_update] does not move. *)
Theorem dumps_disabled_no_dump op self :
  dumps_enabled (GetConfig self) = false ->
  existsb is_dump_request (events_of (perform op self)) = false /\
  (dump_task_live self = false ->
   last_dumped_update_ (step op self) = last_dumped_update_ self).
Proof.
  intros Hd. unfold step.
  assert (Hrun : forall o s, dump_task_live s = false ->
            last_dumped_update_ (state_of (RunDumpTask o s)) = last_dumped_update_ s).
  { intros o s Hl. rewrite RunDumpTask_eq. unfold dump_task_live in Hl.
    destruct (dump_task (update_ s)); try reflexivity. discriminate. }
  assert (Hrq : forall o s,
            existsb is_dump_request (events_of (RunDumpTask o s)) = false).
  { intros o s. rewrite RunDumpTask_eq.
    destruct (dump_task (update_ s)) as [|[] ? ?|?]; reflexivity. }
  destruct op as [flags env|outcome|merged|requested env|outcome| |env|outcome];
    cbn [perform].
  - rewrite StartPeriodicUpdates_eq.
    destruct (is_running_ self); [split; reflexivity|]. cbv zeta.
    rewrite LoadFromDump_eq, Hd. project_triples.
    set (self0 := set_cache_invalidator_holder true (set_is_running true self)).
    destruct (DoPeriodicUpdate_dumps_disabled (first_update env) self0 Hd)
      as [Hpe Hpl].
    set (p := DoPeriodicUpdate _ _) in *.
    assert (Hse : forall s,
              existsb is_dump_request
                (start_events (periodic_update_enabled_ self) (GetConfig self) s)
              = false)
      by (intros s; destruct (periodic_update_enabled_ self); reflexivity).
    assert (Hl : forall s,
              last_dumped_update_
                (tasks_started (periodic_update_enabled_ self) (GetConfig self)
                   (escalated (dump_loaded self env) (GetConfig self) s)) =
              last_dumped_update_ s)
      by (intros s; apply (bootstrap_tail_instants _ _ _ s)).
    destruct (runs_first_update self flags env);
      [destruct (result_of p); [|destruct (tolerates_failure self env)]|];
      project_triples; rewrite ?existsb_app, ?Hse, ?Hpe, ?Hl;
      (split; [reflexivity|intros _; solve [exact Hpl | reflexivity]]).
  - rewrite StopPeriodicUpdates_eq.
    destruct (is_running_ self); [|split; reflexivity]. cbv zeta.
    unfold dump_task_live.
    destruct (dump_task (update_ self)) as [|[] o n|b]; project_triples;
      (split; [reflexivity|]); intros H; try reflexivity; discriminate.
  - destruct (SetConfig_eq merged self) as (s' & -> & _ & Hl).
    split; [reflexivity|intros _; exact Hl].
  - rewrite Update_eq, DoUpdate_events. split; [reflexivity|].
    intros _. match goal with |- context [DoUpdate env ?t self] =>
      destruct (DoUpdate_instants env t self) as (H & _) end. exact H.
  - rewrite DumpSyncDebug_eq. cbv zeta. rewrite DumpAsyncIfNeeded_eq.
    assert (Hs : ShouldDump self kForced (update_ self) (GetConfig self) = false)
      by (unfold ShouldDump; rewrite Hd; reflexivity).
    rewrite Hs. project_triples.
    destruct (IsValid (dump_task (update_ self))); project_triples.
    + cbn [app existsb is_dump_request orb]. rewrite Hrq.
      split; [reflexivity|]. apply Hrun.
    + split; reflexivity.
  - split; reflexivity.
  - unfold bind, get.
    destruct (update_task_ self); [|split; reflexivity].
    destruct (DoPeriodicUpdate_dumps_disabled env self Hd) as [Hpe Hpl].
    destruct (DoPeriodicUpdate env self) as [[r s] evs].
    destruct r; split; solve [exact Hpe | intros _; exact Hpl].
  - split; [apply Hrq|apply Hrun].
Qed.

Lemma dumps_disabled_no_dump_witness :
  existsb is_dump_request
    (events_of
       (perform (CallStartPeriodicUpdates [] warm_start_upstream_down)
          (step (CallSetConfig
                   (Some (mkCacheConfigStatic 5 1 100 7 kOnlyFull kBestEffort
                            false true false 0)))
                (Construct scenario_config true)))) = false.
Proof.
  exact (proj1 (dumps_disabled_no_dump
                  (CallStartPeriodicUpdates [] warm_start_upstream_down)
                  (step (CallSetConfig
                           (Some (mkCacheConfigStatic 5 1 100 7 kOnlyFull
                                    kBestEffort false true false 0)))
                        (Construct scenario_config true))
                  eq_refl)).
Defined.

(** ** Writing a dump *)



(** X15. A [kNewDump] task advances [last_dumped_update] to the instant
    it dumped exactly when [DoDump] returns true, that is when the file
    was written and the facade's cleanup did not throw; only then are the
    write statistics replaced (size, start time, and a duration that is
    not negative on a steady clock).  If the cleanup throws after the
    file was written, the exception stays in the task handle and
    [last_dumped_update] is left behind the dump that is on disk. *)
Theorem new_dump_advances_iff_written ticks env stats old_update_time
    new_update_time self :
  dump_task (update_ self) = TaskRunning kNewDump old_update_time new_update_time ->
  let d := DoDump ticks new_update_time env stats in
  let s' := state_of (RunDumpTask (fst (fst d)) self) in
  match serialization env, cleanup_throws env with
  | Written dump_size, None =>
      fst (fst d) = Ok true /\
      last_dumped_update_ s' = new_update_time /\
      dump_task (update_ s') = TaskFinished false /\
      last_written_size (snd (fst d)) = dump_size /\
      last_nontrivial_write_start_time (snd (fst d)) = dump_start env /\
      (0 < ticks -> dump_start env <= dump_finish env ->
       0 <= last_nontrivial_write_duration (snd (fst d)))
  | Written _, Some e =>
      fst (fst d) = Throw e /\
      last_dumped_update_ s' = last_dumped_update_ self /\
      dump_task (update_ s') = TaskFinished true /\
      snd (fst d) = stats
  | _, _ =>
      fst (fst d) = Ok false /\
      last_dumped_update_ s' = last_dumped_update_ self /\
      dump_task (update_ s') = TaskFinished false /\
      snd (fst d) = stats /\
      ~ In CallCleanup (snd d)
  end.
Proof.
  intros Ht d s'. subst s' d. unfold DoDump.
  destruct (serialization env) as [size| |e];
    [destruct (cleanup_throws env) as [ex|]| |];
    cbn [fst snd]; rewrite RunDumpTask_eq, Ht; project_triples;
    cbn [finished]; repeat split.
  - intros Hpos Hle. cbn. apply Z.quot_pos; lia.
  - cbn. intuition discriminate.
  - cbn. intuition discriminate.
Qed.

Lemma new_dump_advances_iff_written_witness :
  let d := DoDump 1000000 10 (mkDumpEnv 0 (Written 42) None 5000000)
             (mkDumpWriteStatistics 0 0 0) in
  last_dumped_update_ (state_of (RunDumpTask (fst (fst d)) running_cache)) = 10 /\
  snd (fst d) = mkDumpWriteStatistics 42 5 0.
Proof.
  destruct (new_dump_advances_iff_written 1000000
              (mkDumpEnv 0 (Written 42) None 5000000)
              (mkDumpWriteStatistics 0 0 0) 0 10 running_cache eq_refl)
    as (_ & H & _).
  split; [exact H|reflexivity].
Defined.

(** ** Periodic tasks and configuration *)

Lemma same_lifecycle_tasks_consistent s s' :
  same_lifecycle s s' -> tasks_consistent s -> tasks_consistent s'.
Proof.
  unfold same_lifecycle, tasks_consistent, GetPeriodicTaskSettings.
  intros Hs Hc. decompose [and] Hs. clear Hs.
  repeat match goal with H : _ s' = _ s |- _ => rewrite H; clear H end.
  exact Hc.
Qed.

Lemma tasks_consistent_not_running self :
  tasks_consistent self -> is_running_ self = false ->
  update_task_ self = None /\ cleanup_task_ self = None.
Proof.
  unfold tasks_consistent. intros (_ & _ & H) Hr.
  destruct (update_task_ self); [|split; [reflexivity|exact H]].
  destruct H as (H & _). congruence.
Qed.

Lemma step_tasks_consistent op self :
  tasks_consistent self -> tasks_consistent (step op self).
Proof.
  intros Hc. unfold step.
  destruct op as [flags env|outcome|merged|requested env|outcome| |env|outcome];
    cbn [perform].
  - rewrite StartPeriodicUpdates_eq.
    destruct (is_running_ self) eqn:Hrun.
    { project_triples. rewrite set_is_running_same by exact Hrun. exact Hc. }
    cbv zeta.
    destruct (tasks_consistent_not_running self Hc Hrun) as [Hu Hcl].
    destruct Hc as (Hch & Hcr & _).
    set (self0 := set_cache_invalidator_holder true (set_is_running true self)).
    pose proof (LoadFromDump_lifecycle (latest_dump env) (GetConfig self) self0) as Hl.
    set (l := LoadFromDump _ _ _) in *.
    pose proof (DoPeriodicUpdate_lifecycle (first_update env) (state_of l)) as Hp.
    set (p := DoPeriodicUpdate _ _) in *.
    pose proof (same_lifecycle_trans _ _ _ Hl Hp) as Hlp.
    assert (H0 : periodic_task_flags_ self0 = periodic_task_flags_ self /\
                 update_task_ self0 = update_task_ self /\
                 cleanup_task_ self0 = cleanup_task_ self /\
                 config_ self0 = config_ self /\
                 periodic_update_enabled_ self0 = periodic_update_enabled_ self /\
                 is_running_ self0 = true)
      by (repeat split).
    destruct H0 as (H01 & H02 & H03 & H04 & H05 & H06).
    assert (Hgo : forall s, same_lifecycle self0 s ->
              tasks_consistent
                (tasks_started (periodic_update_enabled_ self) (GetConfig self)
                   (escalated (dump_loaded self env) (GetConfig self) s))).
    { intros s Hs. unfold same_lifecycle in Hs. decompose [and] Hs. clear Hs.
      unfold tasks_consistent, tasks_started, escalated, GetPeriodicTaskSettings,
        GetConfig.
      destruct (periodic_update_enabled_ self) eqn:Hpe,
        (dump_loaded self env &&
         is_kOnlyIncremental (allowed_update_types (config_ self)) &&
         force_full_second_update (config_ self));
        cbn; rewrite ?H4, ?H02, ?Hu, ?H5, ?H03, ?Hcl; repeat split; congruence. }
    destruct (runs_first_update self flags env);
      [destruct (result_of p); [|destruct (tolerates_failure self env)]|];
      project_triples; try (apply Hgo; assumption).
    unfold same_lifecycle in Hlp. decompose [and] Hlp. clear Hlp.
    unfold tasks_consistent.
    cbn [set_is_running periodic_task_flags_ update_task_ cleanup_task_].
    repeat match goal with H : _ (state_of p) = _ self0 |- _ => rewrite H; clear H end.
    rewrite H01, H02, H03, Hu, Hcl. repeat split; assumption.
  - rewrite StopPeriodicUpdates_eq.
    destruct (is_running_ self) eqn:Hrun.
    + cbv zeta. destruct Hc as (Hch & Hcr & Hc).
      destruct (dump_task (update_ self)) as [|op o n|b]; project_triples;
        [| destruct outcome as [[]|e] |]; unfold tasks_consistent; cbn;
        repeat split; assumption.
    + project_triples. rewrite set_is_running_same by exact Hrun. exact Hc.
  - unfold SetConfig, bind, modify, get, state_of. cbn.
    destruct Hc as (Hch & Hcr & Hc).
    unfold tasks_consistent, GetPeriodicTaskSettings. cbn.
    destruct (update_task_ self); cbn.
    + destruct Hc as (H1 & H2 & _ & H4). rewrite H4. cbn. repeat split; assumption.
    + rewrite Hc. repeat split; assumption.
  - rewrite Update_eq.
    eapply same_lifecycle_tasks_consistent; [apply DoUpdate_lifecycle|exact Hc].
  - eapply same_lifecycle_tasks_consistent; [apply DumpSyncDebug_lifecycle|exact Hc].
  - exact Hc.
  - unfold bind, get.
    destruct (update_task_ self) eqn:Hu; [|exact Hc].
    pose proof (DoPeriodicUpdate_lifecycle env self) as Hp.
    destruct (DoPeriodicUpdate env self) as [[r s] evs].
    destruct r; cbn; eapply same_lifecycle_tasks_consistent; eassumption.
  - eapply same_lifecycle_tasks_consistent; [apply RunDumpTask_lifecycle|exact Hc].
Qed.

Lemma run_tasks_consistent ops self :
  tasks_consistent self -> tasks_consistent (run ops self).
Proof.
  revert self. induction ops as [|op ops IH]; intros self H; cbn [run].
  - exact H.
  - apply IH, step_tasks_consistent, H.
Qed.

(** X16. Throughout every execution of a constructed cache the periodic
    tasks are started only while the cache is running with periodic
    updates enabled, always both together, the update task with the
    interval, jitter and flags and the cleanup task with the interval of
    the configuration currently in force (also after [SetConfig]); the
    task flags always include [kChaotic] and [kCritical]. *)
Theorem periodic_tasks_follow_config config enabled ops :
  tasks_consistent (run ops (Construct config enabled)).
Proof.
  apply run_tasks_consistent. unfold tasks_consistent. cbn. repeat split.
Qed.

(** X17. Replacing the dynamic configuration and then dropping it again
    ([SetConfig] with a value, then with none) restores the object
    exactly, task settings included, whenever it was running on its
    static configuration with consistent tasks. *)
Theorem SetConfig_round_trip merged self :
  tasks_consistent self ->
  config_ self = static_config_ self ->
  state_of (SetConfig None (state_of (SetConfig merged self))) = self.
Proof.
  intros (_ & _ & Hc) Hs.
  destruct self as [sc c pe ir fn pf cm ldu u ut ct ih sd].
  cbn in *. subst c.
  unfold SetConfig, bind, modify, get, state_of, GetPeriodicTaskSettings in *.
  cbn in *.
  destruct ut as [settings|]; cbn.
  - destruct Hc as (_ & _ & -> & ->). reflexivity.
  - rewrite Hc. reflexivity.
Qed.

Lemma SetConfig_round_trip_witness :
  state_of (SetConfig None
              (state_of (SetConfig (Some warm_required_config) running_cache))) =
  running_cache.
Proof.
  apply (SetConfig_round_trip (Some warm_required_config) running_cache).
  - vm_compute. repeat split.
  - reflexivity.
Defined.

(** ** Dump statistics *)

Lemma dump_statistics_consistent_same s s' :
  statistics_dump s' = statistics_dump s ->
  last_update (update_ s') = last_update (update_ s) ->
  last_modifying_update (update_ s') = last_modifying_update (update_ s) ->
  dump_statistics_consistent s -> dump_statistics_consistent s'.
Proof.
  unfold dump_statistics_consistent. intros -> -> -> H. exact H.
Qed.

Lemma DoUpdate_dump_statistics env update_type self :
  dump_statistics_consistent self ->
  dump_statistics_consistent (state_of (DoUpdate env update_type self)).
Proof.
  intros H. rewrite DoUpdate_eq. cbv zeta.
  destruct (update_throws (domain env)); project_triples.
  - destruct (calls_OnCacheModified (domain env)); [|exact H].
    eapply dump_statistics_consistent_same; [..|exact H]; reflexivity.
  - unfold dump_statistics_consistent, updated. cbn. discriminate.
Qed.

Lemma DumpAsyncIfNeeded_dump_statistics type config self :
  dump_statistics_consistent self ->
  dump_statistics_consistent (state_of (DumpAsyncIfNeeded type config self)).
Proof.
  intros H. rewrite DumpAsyncIfNeeded_eq.
  destruct (ShouldDump self type (update_ self) config); project_triples;
    [|exact H].
  eapply dump_statistics_consistent_same; [..|exact H]; reflexivity.
Qed.

Lemma DoPeriodicUpdate_dump_statistics env self :
  dump_statistics_consistent self ->
  dump_statistics_consistent (state_of (DoPeriodicUpdate env self)).
Proof.
  intros H. rewrite DoPeriodicUpdate_eq. cbv zeta. project_triples.
  apply DumpAsyncIfNeeded_dump_statistics, DoUpdate_dump_statistics.
  eapply dump_statistics_consistent_same; [..|exact H]; reflexivity.
Qed.

Lemma RunDumpTask_dump_statistics outcome self :
  dump_statistics_consistent self ->
  dump_statistics_consistent (state_of (RunDumpTask outcome self)).
Proof.
  intros H. rewrite RunDumpTask_eq.
  destruct (dump_task (update_ self)) as [|op o n|b]; project_triples;
    try exact H.
  (eapply dump_statistics_consistent_same; [..|exact H]);
    destruct outcome as [[]|e]; reflexivity.
Qed.

Lemma step_dump_statistics op self :
  dump_statistics_consistent self -> dump_statistics_consistent (step op self).
Proof.
  intros H. unfold step.
  destruct op as [flags env|outcome|merged|requested env|outcome| |env|outcome];
    cbn [perform].
  - rewrite StartPeriodicUpdates_eq.
    destruct (is_running_ self) eqn:Hrun.
    { project_triples. rewrite set_is_running_same by exact Hrun. exact H. }
    cbv zeta.
    set (self0 := set_cache_invalidator_holder true (set_is_running true self)).
    assert (Hl : dump_statistics_consistent
                   (state_of (LoadFromDump (latest_dump env) (GetConfig self) self0))).
    { rewrite LoadFromDump_eq.
      destruct (dumps_enabled (GetConfig self)); [destruct (latest_dump env)|];
        project_triples;
        try (eapply dump_statistics_consistent_same; [..|exact H]; reflexivity).
      unfold dump_statistics_consistent. cbn. intros _. split; reflexivity. }
    set (l := LoadFromDump _ _ _) in *.
    pose proof (DoPeriodicUpdate_dump_statistics (first_update env) (state_of l) Hl)
      as Hp.
    set (p := DoPeriodicUpdate _ _) in *.
    assert (Hgo : forall s, dump_statistics_consistent s ->
              dump_statistics_consistent
                (tasks_started (periodic_update_enabled_ self) (GetConfig self)
                   (escalated (dump_loaded self env) (GetConfig self) s))).
    { intros s Hs.
      (eapply dump_statistics_consistent_same; [..|exact Hs]);
        unfold tasks_started, escalated;
        destruct (periodic_update_enabled_ self),
          (dump_loaded self env &&
           is_kOnlyIncremental (allowed_update_types (GetConfig self)) &&
           force_full_second_update (GetConfig self)); reflexivity. }
    destruct (runs_first_update self flags env);
      [destruct (result_of p); [|destruct (tolerates_failure self env)]|];
      project_triples; try (apply Hgo; assumption).
    eapply dump_statistics_consistent_same; [..|exact Hp]; reflexivity.
  - rewrite StopPeriodicUpdates_eq.
    destruct (is_running_ self) eqn:Hrun.
    + cbv zeta.
      destruct (dump_task (update_ self)) as [|op o n|b]; project_triples;
        (eapply dump_statistics_consistent_same; [..|exact H]);
        try reflexivity; destruct outcome as [[]|e]; reflexivity.
    + project_triples. rewrite set_is_running_same by exact Hrun. exact H.
  - eapply dump_statistics_consistent_same; [..|exact H]; reflexivity.
  - rewrite Update_eq. apply DoUpdate_dump_statistics, H.
  - rewrite DumpSyncDebug_eq. cbv zeta.
    pose proof (DumpAsyncIfNeeded_dump_statistics kForced (GetConfig self) self H)
      as Ha.
    destruct (IsValid _); project_triples; [|exact Ha].
    apply RunDumpTask_dump_statistics, Ha.
  - eapply dump_statistics_consistent_same; [..|exact H]; reflexivity.
  - unfold bind, get.
    destruct (update_task_ self); [|exact H].
    pose proof (DoPeriodicUpdate_dump_statistics env self H) as Hp.
    destruct (DoPeriodicUpdate env self) as [[r s] evs].
    destruct r; exact Hp.
  - apply RunDumpTask_dump_statistics, H.
Qed.

Lemma run_dump_statistics ops self :
  dump_statistics_consistent self -> dump_statistics_consistent (run ops self).
Proof.
  revert self. induction ops as [|op ops IH]; intros self H; cbn [run].
  - exact H.
  - apply IH, step_dump_statistics, H.
Qed.

(** X18. Throughout every execution of a constructed cache, whenever the
    statistics report the cache as current from a dump, a dump has been
    loaded and [last_update] and [last_modifying_update] are still the
    same instant: no update has returned since the load, and the first
    one that does clears the mark. *)
Theorem current_from_dump_means_untouched config enabled ops :
  let self := run ops (Construct config enabled) in
  dump_statistics_consistent self /\
  (forall env update_type,
     update_throws (domain env) = None ->
     is_current_from_dump
       (statistics_dump (state_of (DoUpdate env update_type self))) = false).
Proof.
  cbv zeta. split.
  - apply run_dump_statistics. unfold dump_statistics_consistent. cbn. discriminate.
  - intros env update_type He. rewrite DoUpdate_eq, He. reflexivity.
Qed.
